(** * ejson: registry-driven extension of the JSON codec

    A shallow embedding of [ejson/__init__.py].  The module keeps two
    process-wide dictionaries, [REGISTRY] and [DESERIALIZE_REGISTRY], and
    plugs two hooks into the standard [json] module: [_converter] is the
    [default] hook of [json.dumps] and [_convert_from] the [object_hook] of
    [json.loads].

    What is modelled, and how:
    - Python objects are the inductive [value]; a dictionary with string
      keys is a [gmap string value] (equal as soon as the lookups agree,
      like Python's [dict] equality), an instance of an application class
      is [VInst klass state].  Such an instance has no [rsplit] method.
    - A class object is known by its [__module__] and [__name__].
    - JSON text is represented by the document it denotes, the tree
      [json], whose objects keep their members in textual order (with
      duplicates, as a text may have them).  The lexer and printer of the
      standard codec are not part of the repository; what the codec does
      with the hooks is [json_loads] and [json_dumps].
    - Exceptions are the error side of the monad [result].
    - The two registries are the fields of the record [state], threaded
      explicitly.  Registered handlers are functions from values to
      results: they may raise, they have no other effect.
    - [import_module] and the attribute tables of the modules it finds are
      the record [environment]; importing may raise anything. *)

From Stdlib Require Import Ascii.
From stdpp Require Import base gmap strings list fin_maps sorting.

Set Warnings "-register-all".
Local Open Scope string_scope.

(** ** Exceptions and the error monad *)

Inductive exn :=
| ImportError
| AttributeError
| KeyError (key : string)
| ValueError
| TypeError (msg : string)
| RecursionError
| OtherError (name : string).

Inductive result (A : Type) :=
| Ok (a : A)
| Raise (e : exn).
Arguments Ok {A} a.
Arguments Raise {A} e.

#[global] Instance result_ret : MRet result := λ A a, Ok a.
#[global] Instance result_bind : MBind result := λ A B f m,
  match m with Ok a => f a | Raise e => Raise e end.
#[global] Instance result_fmap : FMap result := λ A B f m,
  match m with Ok a => Ok (f a) | Raise e => Raise e end.

(** [sequence rs] runs the computations left to right and stops at the
    first exception. *)
Fixpoint sequence {A} (rs : list (result A)) : result (list A) :=
  match rs with
  | [] => Ok []
  | r :: rs' => a ← r; as' ← sequence rs'; Ok (a :: as')
  end.

(** The same for the members of an object: [(key, computation)] pairs. *)
Definition sequence_items {A} (items : list (string * result A))
  : result (list (string * A)) :=
  sequence ((λ kr, a ← kr.2; Ok (kr.1, a)) <$> items).

(** ** Classes, Python values and JSON documents *)

(** A class object, with the two attributes the library reads from it. *)
Record klass := Klass { __module__ : string; __name__ : string }.

#[global] Instance klass_eq_dec : EqDecision klass.
Proof. solve_decision. Defined.

#[global] Instance klass_countable : Countable klass.
Proof.
  refine (inj_countable' (λ k, (__module__ k, __name__ k))
                         (λ p, Klass p.1 p.2) _).
  by intros [].
Defined.

(** Python values.  A float is carried by its literal. *)
Inductive value :=
| VNone
| VBool (b : bool)
| VInt (z : Z)
| VFloat (lit : string)
| VStr (s : string)
| VList (l : list value)
| VDict (d : gmap string value)
| VInst (k : klass) (st : value).

(** The document a JSON text denotes. *)
Inductive json :=
| JNull
| JBool (b : bool)
| JInt (z : Z)
| JFloat (lit : string)
| JStr (s : string)
| JArr (l : list json)
| JObj (members : list (string * json)).

(** A registered function: [instance -> payload] or [payload -> instance];
    it may raise. *)
Abbreviation handler := (value → result value).

(** [data.__class__]; the built-in types carry their Python 3 names. *)
Definition __class__ (data : value) : klass :=
  match data with
  | VNone => Klass "builtins" "NoneType"
  | VBool _ => Klass "builtins" "bool"
  | VInt _ => Klass "builtins" "int"
  | VFloat _ => Klass "builtins" "float"
  | VStr _ => Klass "builtins" "str"
  | VList _ => Klass "builtins" "list"
  | VDict _ => Klass "builtins" "dict"
  | VInst k _ => k
  end.

(** [d[key]] *)
Definition getitem (d : gmap string value) (key : string) : result value :=
  match d !! key with
  | Some v => Ok v
  | None => Raise (KeyError key)
  end.

(** [dict(pairs)]: the pairs are stored in order, a later one replacing
    an earlier one with the same key. *)
Definition dict_of_pairs {A} (pairs : list (string * A)) : gmap string A :=
  foldl (λ d kv, <[kv.1 := kv.2]> d) ∅ pairs.

(** ** The registries *)

Record state := State {
  REGISTRY : gmap klass handler;
  DESERIALIZE_REGISTRY : gmap klass handler
}.

(** Both registries empty, as the two cleanup functions leave them.  (At
    import the package fills them from its [serializers] module.) *)
Definition empty_registries : state := State ∅ ∅.

(** [REGISTRY.clear()] *)
Definition cleanup_registry (st : state) : state :=
  State ∅ (DESERIALIZE_REGISTRY st).

(** [DESERIALIZE_REGISTRY.clear()] *)
Definition cleanup_deserialization_registry (st : state) : state :=
  State (REGISTRY st) ∅.

(** [register_serializer(klass)(fun)]: the decorator stores [fun] under
    [klass] and hands it back. *)
Definition register_serializer (klass : klass) (fun_ : handler) (st : state)
  : handler * state :=
  (fun_, State (<[klass := fun_]> (REGISTRY st)) (DESERIALIZE_REGISTRY st)).

(** [register_deserializer(klass)(fun)] *)
Definition register_deserializer (klass : klass) (fun_ : handler) (st : state)
  : handler * state :=
  (fun_, State (REGISTRY st) (<[klass := fun_]> (DESERIALIZE_REGISTRY st))).

(** ** Manual dispatch *)

Definition no_deserializer_message (klass : klass) : string :=
  "There is no deserializer registered to handle instances of '"
    +:+ __name__ klass +:+ "'".

(** [deserialize(klass, data)].  A registered handler is a function, which
    Python's [if handler:] takes as true. *)
Definition deserialize (st : state) (klass : klass) (data : value)
  : result value :=
  match DESERIALIZE_REGISTRY st !! klass with
  | Some handler => handler data
  | None => Raise (TypeError (no_deserializer_message klass))
  end.

(** ** Decoding *)

(** The name space of a module: its attributes that are classes. *)
Abbreviation namespace := (gmap string klass).

(** What [import_module] finds for each dotted module name. *)
Record environment := Environment {
  import_module : string → result namespace
}.

(** [getattr(module, name)] *)
Definition getattr (module : namespace) (name : string) : result klass :=
  match module !! name with
  | Some k => Ok k
  | None => Raise AttributeError
  end.

(** Cuts [s] at its last ['.']: [None] when [s] has none. *)
Fixpoint rsplit_last (s : string) : option (string * string) :=
  match s with
  | EmptyString => None
  | String c rest =>
      match rsplit_last rest with
      | Some (a, b) => Some (String c a, b)
      | None => if Ascii.eqb c "."%char then Some (EmptyString, rest) else None
      end
  end.

(** [s.rsplit('.', 1)] *)
Definition rsplit (s : string) : list string :=
  match rsplit_last s with
  | Some (a, b) => [a; b]
  | None => [s]
  end.

(** [v.rsplit('.', 1)] on an arbitrary value: only strings have the
    method, on anything else the attribute lookup fails. *)
Definition call_rsplit (v : value) : result (list string) :=
  match v with
  | VStr s => Ok (rsplit s)
  | _ => Raise AttributeError
  end.

(** [a, b = parts] *)
Definition unpack2 {A} (parts : list A) : result (A * A) :=
  match parts with
  | [a; b] => Ok (a, b)
  | _ => Raise ValueError
  end.

(** The body of the [try] block of [_convert_from]. *)
Definition find_klass (env : environment) (data : gmap string value)
  : result klass :=
  ident ← getitem data "__class__";
  parts ← call_rsplit ident;
  mk ← unpack2 parts;
  module ← import_module env mk.1;
  getattr module mk.2.

(** [except (ImportError, AttributeError, KeyError)] *)
Definition caught (e : exn) : bool :=
  match e with
  | ImportError | AttributeError | KeyError _ => true
  | _ => false
  end.

(** [_convert_from(data)], the [object_hook]. *)
Definition _convert_from (env : environment) (st : state)
    (data : gmap string value) : result value :=
  match find_klass env data with
  | Raise e => if caught e then Ok (VDict data) else Raise e
  | Ok klass =>
      payload ← getitem data "__value__";
      deserialize st klass payload
  end.

(** [json.loads(text, object_hook=hook)] on the document [text] denotes:
    the members of an object are decoded first, left to right, collected
    in a dictionary, and the dictionary goes through the hook. *)
Fixpoint json_loads (object_hook : gmap string value → result value)
    (doc : json) : result value :=
  match doc with
  | JNull => Ok VNone
  | JBool b => Ok (VBool b)
  | JInt z => Ok (VInt z)
  | JFloat lit => Ok (VFloat lit)
  | JStr s => Ok (VStr s)
  | JArr l => VList <$> sequence (json_loads object_hook <$> l)
  | JObj members =>
      pairs ← sequence_items
                 ((λ kj, (kj.1, json_loads object_hook kj.2)) <$> members);
      object_hook (dict_of_pairs pairs)
  end.

(** [loads(data)], with no keyword argument that would replace the hook
    or the decoder. *)
Definition loads (env : environment) (st : state) (data : json)
  : result value :=
  json_loads (_convert_from env st) data.

(** ** Encoding *)

(** [_converter(data)], the [default] hook.  [repr] is Python's [repr],
    which depends on the [__repr__] of each class. *)
Definition _converter (repr : value → string) (st : state) (data : value)
  : result value :=
  match REGISTRY st !! __class__ data with
  | Some handler =>
      let full_name :=
        __module__ (__class__ data) +:+ "." +:+ __name__ (__class__ data) in
      payload ← handler data;
      Ok (VDict (<["__class__" := VStr full_name]>
                   (<["__value__" := payload]> ∅)))
  | None => Raise (TypeError (repr data +:+ " is not JSON serializable"))
  end.

(** The order of the keys of an object in the output. *)
Definition item_le {A} (x y : string * A) : Prop := String.leb x.1 y.1 = true.

#[global] Instance item_le_dec {A} : RelDecision (@item_le A).
Proof. intros x y. unfold item_le. apply _. Defined.

(** [dct.items()], or [sorted(dct.items())] under [sort_keys].  Without
    sorting the order is the dictionary's own. *)
Definition items {A} (sort_keys : bool) (d : gmap string A)
  : list (string * A) :=
  if sort_keys then merge_sort item_le (map_to_list d) else map_to_list d.

(** [json.dumps(o, default=hook, sort_keys=...)], up to the document its
    output denotes.  Values the codec knows are written as they are; any
    other goes through [default_hook] and the outcome is encoded in its
    place.  [depth] bounds how many conversions may nest, as the
    interpreter's recursion limit does: a handler whose outcome holds the
    very instance it was given never ends well, here with
    [RecursionError], in Python with the codec's complaint about a
    circular reference. *)
Fixpoint json_dumps (default_hook : value → result value) (sort_keys : bool)
    (depth : nat) : value → result json :=
  fix iterencode (o : value) : result json :=
    match o with
    | VNone => Ok JNull
    | VBool b => Ok (JBool b)
    | VInt z => Ok (JInt z)
    | VFloat lit => Ok (JFloat lit)
    | VStr s => Ok (JStr s)
    | VList l => JArr <$> sequence (iterencode <$> l)
    | VDict d => JObj <$> sequence_items (items sort_keys (iterencode <$> d))
    | VInst _ _ =>
        o' ← default_hook o;
        match depth with
        | 0 => Raise RecursionError
        | S n => json_dumps default_hook sort_keys n o'
        end
    end.

(** [cgi.escape(s)]: ampersand and angle brackets, not the quotes. *)
Fixpoint cgi_escape (s : string) : string :=
  match s with
  | EmptyString => EmptyString
  | String c rest =>
      (if Ascii.eqb c "&"%char then "&amp;"
       else if Ascii.eqb c "<"%char then "&lt;"
       else if Ascii.eqb c ">"%char then "&gt;"
       else String c EmptyString) +:+ cgi_escape rest
  end.

(** [cgi.escape] over a whole output text: the three characters occur
    there only inside strings, keys included. *)
Fixpoint escape_document (doc : json) : json :=
  match doc with
  | JStr s => JStr (cgi_escape s)
  | JArr l => JArr (escape_document <$> l)
  | JObj members =>
      JObj ((λ kj, (cgi_escape kj.1, escape_document kj.2)) <$> members)
  | _ => doc
  end.

(** [dumps(data, escape=False, **kwargs)]; of the keyword arguments only
    [sort_keys] changes the document, [None] stands for its absence. *)
Definition dumps (repr : value → string) (depth : nat) (st : state)
    (data : value) (escape : bool) (sort_keys : option bool) : result json :=
  let sort_keys := default true sort_keys in
  converted ← json_dumps (_converter repr st) sort_keys depth data;
  if escape then Ok (escape_document converted) else Ok converted.

(** ** Resolution of an identifier *)

(** [ident] names [klass]: it has a ['.'], the part before the last one
    is an importable module and the part after it a class of that module. *)
Definition resolves (env : environment) (ident : string) (klass : klass)
  : Prop :=
  ∃ module name ns,
    rsplit_last ident = Some (module, name)
    ∧ import_module env module = Ok ns
    ∧ ns !! name = Some klass.

(** The ways in which the [try] block gives up on a dictionary. *)
Inductive unresolved (env : environment) (data : gmap string value) : Prop :=
| no_class_key :
    data !! "__class__" = None → unresolved env data
| class_not_a_string v :
    data !! "__class__" = Some v → (∀ s, v ≠ VStr s) → unresolved env data
| module_not_importable ident module name :
    data !! "__class__" = Some (VStr ident) →
    rsplit_last ident = Some (module, name) →
    import_module env module = Raise ImportError →
    unresolved env data
| name_not_in_module ident module name ns :
    data !! "__class__" = Some (VStr ident) →
    rsplit_last ident = Some (module, name) →
    import_module env module = Ok ns →
    ns !! name = None →
    unresolved env data.

(** ** Notions used to state the properties *)

(** [json.loads(text)] without any hook. *)
Fixpoint plain_value (doc : json) : value :=
  match doc with
  | JNull => VNone
  | JBool b => VBool b
  | JInt z => VInt z
  | JFloat lit => VFloat lit
  | JStr s => VStr s
  | JArr l => VList (plain_value <$> l)
  | JObj members =>
      VDict (dict_of_pairs ((λ kj, (kj.1, plain_value kj.2)) <$> members))
  end.

(** Documents none of whose objects names a class that can be found. *)
Inductive foreign_document (env : environment) : json → Prop :=
| foreign_null : foreign_document env JNull
| foreign_bool b : foreign_document env (JBool b)
| foreign_int z : foreign_document env (JInt z)
| foreign_float lit : foreign_document env (JFloat lit)
| foreign_str s : foreign_document env (JStr s)
| foreign_arr l :
    Forall (foreign_document env) l → foreign_document env (JArr l)
| foreign_obj members :
    Forall (λ kj, foreign_document env kj.2) members →
    unresolved env
      (dict_of_pairs ((λ kj, (kj.1, plain_value kj.2)) <$> members)) →
    foreign_document env (JObj members).

(** The order of keys, as a relation on the keys themselves. *)
Definition key_le (a b : string) : Prop := String.leb a b = true.

(** Every object of the document lists its keys in increasing order. *)
Inductive sorted_document : json → Prop :=
| sorted_null : sorted_document JNull
| sorted_bool b : sorted_document (JBool b)
| sorted_int z : sorted_document (JInt z)
| sorted_float lit : sorted_document (JFloat lit)
| sorted_str s : sorted_document (JStr s)
| sorted_arr l : Forall sorted_document l → sorted_document (JArr l)
| sorted_obj members :
    StronglySorted key_le members.*1 →
    Forall (λ kj, sorted_document kj.2) members →
    sorted_document (JObj members).

(** A measure for induction on values. *)
Fixpoint value_size (v : value) : nat :=
  match v with
  | VList l => S (foldr (λ x n, value_size x + n) 0 l)
  | VDict d => S (map_fold (λ _ x n, value_size x + n) 0 d)
  | VInst _ st => S (value_size st)
  | _ => 1
  end.

(** Values the codec cannot write by itself. *)
Definition is_instance (o : value) : Prop :=
  match o with VInst _ _ => True | _ => False end.

(** [o] sits somewhere in [data], under lists and dictionaries only. *)
Inductive within (o : value) : value → Prop :=
| within_here : within o o
| within_list l x : x ∈ l → within o x → within o (VList l)
| within_dict d key x : d !! key = Some x → within o x → within o (VDict d).

(** Values for which encoding followed by decoding is the identity:
    scalars; lists of such values; dictionaries of such values that the
    hook leaves alone; instances of a class whose identifier leads back to
    the class and whose registered functions undo each other on them, the
    payload being such a value again. *)
Inductive faithful (env : environment) (st : state) : value → Prop :=
| faithful_none : faithful env st VNone
| faithful_bool b : faithful env st (VBool b)
| faithful_int z : faithful env st (VInt z)
| faithful_float lit : faithful env st (VFloat lit)
| faithful_str s : faithful env st (VStr s)
| faithful_list l :
    Forall (faithful env st) l → faithful env st (VList l)
| faithful_dict d :
    map_Forall (λ _, faithful env st) d →
    unresolved env d →
    faithful env st (VDict d)
| faithful_inst k s encode_fn decode_fn payload :
    REGISTRY st !! k = Some encode_fn →
    DESERIALIZE_REGISTRY st !! k = Some decode_fn →
    encode_fn (VInst k s) = Ok payload →
    decode_fn payload = Ok (VInst k s) →
    resolves env (__module__ k +:+ "." +:+ __name__ k) k →
    faithful env st payload →
    faithful env st (VInst k s).

(** ** Notions for the further properties *)

(** Some object of the document has a member named [__class__]. *)
Fixpoint mentions_class (doc : json) : bool :=
  match doc with
  | JArr l => existsb mentions_class l
  | JObj members =>
      existsb (λ kj, String.eqb kj.1 "__class__" || mentions_class kj.2)
        members
  | _ => false
  end.

(** Data the codec writes by itself: no instance anywhere in it. *)
Definition native (data : value) : Prop :=
  ∀ o, within o data → ¬ is_instance o.

(** [sub] is the document itself or sits somewhere inside it. *)
Inductive part_of (sub : json) : json → Prop :=
| part_here : part_of sub sub
| part_arr l x : x ∈ l → part_of sub x → part_of sub (JArr l)
| part_obj members key x :
    (key, x) ∈ members → part_of sub x → part_of sub (JObj members).

(** The hook that changes nothing, which is what [json.loads] does with
    no [object_hook]. *)
Definition no_hook (data : gmap string value) : result value :=
  Ok (VDict data).

(** [c in s] *)
Fixpoint has_char (c : ascii) (s : string) : bool :=
  match s with
  | EmptyString => false
  | String c' rest => Ascii.eqb c' c || has_char c rest
  end.

(** Strings free of angle brackets, and strings [cgi.escape] has nothing
    to do on. *)
Definition markup_free (s : string) : bool :=
  negb (has_char "<" s) && negb (has_char ">" s).

Definition nothing_to_escape (s : string) : bool :=
  negb (has_char "&" s) && markup_free s.

(** Every string of the document, the keys of its objects included,
    passes the test. *)
Fixpoint every_string (test : string → bool) (doc : json) : bool :=
  match doc with
  | JStr s => test s
  | JArr l => forallb (every_string test) l
  | JObj members =>
      forallb (λ kj, test kj.1 && every_string test kj.2) members
  | _ => true
  end.

(** ** A worked example: the [Point] of the documentation *)

Module Example.

Definition Point : klass := Klass "pkg" "Point".

Definition point (x y : Z) : value :=
  VInst Point (VDict (<["x" := VInt x]> (<["y" := VInt y]> ∅))).

Definition serialize_point : handler := λ instance,
  match instance with
  | VInst _ fields => Ok fields
  | _ => Raise AttributeError
  end.

Definition deserialize_point : handler := λ data,
  match data with
  | VDict d =>
      x ← getitem d "x"; y ← getitem d "y";
      Ok (VInst Point (VDict (<["x" := x]> (<["y" := y]> ∅))))
  | _ => Raise (TypeError "payload is not a mapping")
  end.

(** A class whose instances hold other instances: the two ends of a
    segment are points. *)
Definition Segment : klass := Klass "pkg" "Segment".

Definition segment (a b : value) : value :=
  VInst Segment (VDict (<["from" := a]> (<["to" := b]> ∅))).

Definition serialize_segment : handler := λ instance,
  match instance with
  | VInst _ ends => Ok ends
  | _ => Raise AttributeError
  end.

Definition deserialize_segment : handler := λ data,
  match data with
  | VDict d =>
      a ← getitem d "from"; b ← getitem d "to";
      Ok (VInst Segment (VDict (<["from" := a]> (<["to" := b]> ∅))))
  | _ => Raise (TypeError "payload is not a mapping")
  end.

(** The module [pkg] defines [Point] and [Segment]. *)
Definition pkg : namespace :=
  <["Point" := Point]> (<["Segment" := Segment]> ∅).

(** [pkg] is importable; nothing else is. *)
Definition env : environment :=
  Environment (λ name,
    if decide (name = "pkg") then Ok pkg else Raise ImportError).

Definition registered : state :=
  (register_deserializer Segment deserialize_segment
     (register_serializer Segment serialize_segment
        (register_deserializer Point deserialize_point
           (register_serializer Point serialize_point
              empty_registries).2).2).2).2.

Definition repr : value → string := λ _, "<object>".

Definition envelope (ident : string) (payload : json) : json :=
  JObj [("__class__", JStr ident); ("__value__", payload)].

Definition xy (x y : Z) : json := JObj [("x", JInt x); ("y", JInt y)].

Definition fields (x y : Z) : value :=
  VDict (<["x" := VInt x]> (<["y" := VInt y]> ∅)).

(** The dictionary the hook receives for an envelope. *)
Definition envelope_dict (ident payload : value) : gmap string value :=
  <["__class__" := ident]> (<["__value__" := payload]> ∅).

(** A segment between two points: registered instances inside the
    payload of a registered instance. *)
Definition nested : value := segment (point 1 2) (point 3 4).

(** An envelope with one more member. *)
Definition with_extra_key : json :=
  JObj [("__class__", JStr "pkg.Point"); ("__value__", xy 1 2);
        ("extra", JInt 0)].

(** A document with objects of all the kinds the hook gives up on. *)
Definition foreign : json :=
  JArr [JObj [("name", JStr "A")];
        JObj [("__class__", JInt 3); ("__value__", JNull)];
        JObj [("__class__", JStr "nowhere.Thing"); ("__value__", JNull)];
        JObj [("__class__", JStr "pkg.Missing")]].

(** A class defined where [import_module] cannot reach it, with its
    two functions. *)
Definition Hidden : klass := Klass "pkg" "Hidden".

Definition hidden : value := VInst Hidden (VInt 7).

Definition serialize_hidden : handler := λ instance,
  match instance with
  | VInst _ st => Ok st
  | _ => Raise AttributeError
  end.

Definition deserialize_hidden : handler := λ data, Ok (VInst Hidden data).

Definition registered_hidden : state :=
  (register_deserializer Hidden deserialize_hidden
     (register_serializer Hidden serialize_hidden empty_registries).2).2.

(** A class of a module whose name has dots, as the test suite has. *)
Definition Person : klass := Klass "tests.unit.test_ejson" "Person".

(** An environment in which importing [broken] fails in the middle. *)
Definition env_broken : environment :=
  Environment (λ name,
    if decide (name = "broken") then Raise (OtherError "SyntaxError")
    else Raise ImportError).

(** A function that can only fail. *)
Definition failing : handler := λ _, Raise (OtherError "RuntimeError").

(** A serializer that hands the instance back inside a list. *)
Definition serialize_self : handler := λ instance, Ok (VList [instance]).

(** Plain data with markup in it, and the document that denotes it. *)
Definition markup : value :=
  VDict (<["blah" := VStr "<h1>blah & bleh</h1>"]> ∅).

Definition plain : value :=
  VDict (<["name" := VStr "Grace"]> (<["langs" := VList [VInt 1]]> ∅)).

Definition plain_document : json :=
  JObj [("langs", JArr [JInt 1]); ("name", JStr "Grace")].

End Example.

(** ** Facts about the helpers *)

Lemma find_klass_resolves env data ident klass :
  data !! "__class__" = Some (VStr ident) →
  resolves env ident klass →
  find_klass env data = Ok klass.
Proof.
  intros Hc (module & name & ns & Hs & Hi & Hn).
  unfold find_klass, getitem. rewrite Hc. simpl.
  unfold rsplit. rewrite Hs. simpl. rewrite Hi. simpl.
  unfold getattr. by rewrite Hn.
Qed.

Lemma find_klass_unresolved env data :
  unresolved env data → ∃ e, find_klass env data = Raise e ∧ caught e = true.
Proof.
  intros [Hc | v Hc Hv | ident module name Hc Hs Hi
          | ident module name ns Hc Hs Hi Hn];
    unfold find_klass, getitem; rewrite Hc; simpl.
  - by eexists.
  - destruct v; try (by eexists). by destruct (Hv s).
  - unfold rsplit. rewrite Hs. simpl. rewrite Hi. by eexists.
  - unfold rsplit. rewrite Hs. simpl. rewrite Hi. simpl.
    unfold getattr. rewrite Hn. by eexists.
Qed.

Lemma convert_from_unresolved env st data :
  unresolved env data → _convert_from env st data = Ok (VDict data).
Proof.
  intros (e & He & Hcaught)%find_klass_unresolved.
  unfold _convert_from. by rewrite He, Hcaught.
Qed.

Lemma convert_from_resolved env st data ident klass :
  data !! "__class__" = Some (VStr ident) →
  resolves env ident klass →
  _convert_from env st data
  = (payload ← getitem data "__value__"; deserialize st klass payload).
Proof.
  intros Hc Hr. unfold _convert_from.
  by rewrite (find_klass_resolves _ _ _ _ Hc Hr).
Qed.

(** ** The registries *)

(** C9. Clearing the serializer registry makes every lookup come back
    empty; registering two functions for one class leaves the second in
    effect: the lookup yields it, the state is the one the second alone
    would have produced, and it is the second that [_converter] calls. *)
Theorem registry_isolation (st : state) (klass : klass) (f1 f2 : handler) :
  (∀ k, REGISTRY (cleanup_registry st) !! k = None)
  ∧ REGISTRY (register_serializer klass f2
                (register_serializer klass f1 st).2).2 !! klass = Some f2
  ∧ (register_serializer klass f2 (register_serializer klass f1 st).2).2
    = (register_serializer klass f2 st).2
  ∧ ∀ repr s,
      _converter repr
        (register_serializer klass f2 (register_serializer klass f1 st).2).2
        (VInst klass s)
      = (payload ← f2 (VInst klass s);
         Ok (VDict (<["__class__" :=
                        VStr (__module__ klass +:+ "." +:+ __name__ klass)]>
                      (<["__value__" := payload]> ∅)))).
Proof.
  split; [|split; [|split]].
  - intros k. apply lookup_empty.
  - simpl. apply lookup_insert_eq.
  - simpl. by rewrite insert_insert_eq.
  - intros repr s. unfold _converter. simpl. by rewrite lookup_insert_eq.
Qed.

(** ** Manual dispatch and the automatic path *)

(** C8 (amended). [deserialize] returns what the registered function
    returns on the data when the class has an entry, and raises the
    [TypeError] naming the class when it has none; the hook of the
    automatic path calls it for every object whose identifier resolves and
    hands on its outcome, the error included. *)
Theorem deserialize_dispatch (env : environment) (st : state) (klass : klass)
    (data : value) :
  (∀ h, DESERIALIZE_REGISTRY st !! klass = Some h →
        deserialize st klass data = h data)
  ∧ (DESERIALIZE_REGISTRY st !! klass = None →
     deserialize st klass data
     = Raise (TypeError
                ("There is no deserializer registered to handle instances of '"
                   +:+ __name__ klass +:+ "'")))
  ∧ (∀ d ident, d !! "__class__" = Some (VStr ident) →
       resolves env ident klass →
       d !! "__value__" = Some data →
       _convert_from env st d = deserialize st klass data).
Proof.
  split; [|split].
  - intros h Hh. unfold deserialize. by rewrite Hh.
  - intros Hn. unfold deserialize. by rewrite Hn.
  - intros d ident Hc Hr Hv.
    rewrite (convert_from_resolved _ _ _ _ _ Hc Hr).
    unfold getitem. by rewrite Hv.
Qed.

Lemma deserialize_dispatch_witness :
  deserialize Example.registered Example.Point (Example.fields 1 2)
  = Ok (Example.point 1 2)
  ∧ deserialize empty_registries Example.Point (Example.fields 1 2)
    = Raise (TypeError
        "There is no deserializer registered to handle instances of 'Point'")
  ∧ _convert_from Example.env Example.registered
      (Example.envelope_dict (VStr "pkg.Point") (Example.fields 1 2))
    = Ok (Example.point 1 2).
Proof.
  pose proof (deserialize_dispatch Example.env Example.registered
                Example.Point (Example.fields 1 2)) as (H1 & _ & H3).
  pose proof (deserialize_dispatch Example.env empty_registries
                Example.Point (Example.fields 1 2)) as (_ & H2 & _).
  split; [|split].
  - apply (H1 Example.deserialize_point). reflexivity.
  - apply H2. reflexivity.
  - rewrite (H3 _ "pkg.Point").
    + reflexivity.
    + reflexivity.
    + exists "pkg", "Point", Example.pkg.
      repeat split; reflexivity.
    + reflexivity.
Defined.

(** C8, as stated, fails in its last part: [loads] raises for a missing
    handler too. *)
Lemma deserialize_not_the_only_one_to_raise :
  DESERIALIZE_REGISTRY empty_registries !! Example.Point = None
  ∧ loads Example.env empty_registries
      (Example.envelope "pkg.Point" (Example.xy 1 2))
    = Raise (TypeError
        "There is no deserializer registered to handle instances of 'Point'").
Proof. split; reflexivity. Qed.

(** C1 (amended). When the identifier of an object resolves to a class
    that has no entry in the deserializer registry, and the object has a
    [__value__], the hook raises the [TypeError] of [deserialize]. *)
Theorem convert_from_missing_handler (env : environment) (st : state)
    (data : gmap string value) (ident : string) (klass : klass)
    (payload : value) :
  data !! "__class__" = Some (VStr ident) →
  resolves env ident klass →
  data !! "__value__" = Some payload →
  DESERIALIZE_REGISTRY st !! klass = None →
  _convert_from env st data
  = Raise (TypeError
             ("There is no deserializer registered to handle instances of '"
                +:+ __name__ klass +:+ "'")).
Proof.
  intros Hc Hr Hv Hn.
  rewrite (convert_from_resolved _ _ _ _ _ Hc Hr).
  unfold getitem. rewrite Hv. simpl.
  unfold deserialize. by rewrite Hn.
Qed.

Lemma convert_from_missing_handler_witness :
  _convert_from Example.env empty_registries
    (Example.envelope_dict (VStr "pkg.Point") (Example.fields 1 2))
  = Raise (TypeError
      "There is no deserializer registered to handle instances of 'Point'").
Proof.
  apply (convert_from_missing_handler Example.env empty_registries _
           "pkg.Point" Example.Point (Example.fields 1 2)).
  - reflexivity.
  - exists "pkg", "Point", Example.pkg.
    repeat split; reflexivity.
  - reflexivity.
  - reflexivity.
Defined.

(** C1, as stated, fails: the payload does not come back. *)
Lemma missing_handler_is_not_passed_through :
  Example.envelope_dict (VStr "pkg.Point") (Example.fields 1 2)
    !! "__class__" = Some (VStr "pkg.Point")
  ∧ resolves Example.env "pkg.Point" Example.Point
  ∧ DESERIALIZE_REGISTRY empty_registries !! Example.Point = None
  ∧ _convert_from Example.env empty_registries
      (Example.envelope_dict (VStr "pkg.Point") (Example.fields 1 2))
    ≠ Ok (Example.fields 1 2)
  ∧ loads Example.env empty_registries
      (Example.envelope "pkg.Point" (Example.xy 1 2))
    ≠ Ok (Example.fields 1 2).
Proof.
  split; [reflexivity|]. split.
  { exists "pkg", "Point", Example.pkg.
    repeat split; reflexivity. }
  split; [reflexivity|]. split; by vm_compute.
Qed.

(** C3 (amended). The hook looks at [__class__] and [__value__] and at
    nothing else: when the identifier resolves, any further key leaves the
    outcome what it is without it, [deserialize] of the class on the
    payload. *)
Theorem convert_from_ignores_other_keys (env : environment) (st : state)
    (data : gmap string value) (ident : string) (klass : klass)
    (payload : value) (key : string) (extra : value) :
  data !! "__class__" = Some (VStr ident) →
  resolves env ident klass →
  data !! "__value__" = Some payload →
  key ≠ "__class__" →
  key ≠ "__value__" →
  _convert_from env st (<[key := extra]> data) = deserialize st klass payload
  ∧ _convert_from env st (<[key := extra]> data) = _convert_from env st data.
Proof.
  intros Hc Hr Hv Hk1 Hk2.
  assert (_convert_from env st (<[key := extra]> data)
          = deserialize st klass payload) as ->.
  { rewrite (convert_from_resolved _ _ _ ident klass).
    - unfold getitem. by rewrite lookup_insert_ne, Hv.
    - by rewrite lookup_insert_ne.
    - done. }
  split; [done|].
  rewrite (convert_from_resolved _ _ _ _ _ Hc Hr).
  unfold getitem. by rewrite Hv.
Qed.

Lemma convert_from_ignores_other_keys_witness :
  _convert_from Example.env Example.registered
    (<["extra" := VInt 0]>
       (Example.envelope_dict (VStr "pkg.Point") (Example.fields 1 2)))
  = deserialize Example.registered Example.Point (Example.fields 1 2).
Proof.
  apply (convert_from_ignores_other_keys Example.env Example.registered
           _ "pkg.Point" Example.Point (Example.fields 1 2) "extra" (VInt 0)).
  - reflexivity.
  - exists "pkg", "Point", Example.pkg.
    repeat split; reflexivity.
  - reflexivity.
  - discriminate.
  - discriminate.
Defined.

(** C3, as stated, fails: an object with a third key is rebuilt into an
    instance all the same. *)
Lemma third_key_does_not_prevent_reconstruction :
  loads Example.env Example.registered Example.with_extra_key
  = Ok (Example.point 1 2)
  ∧ loads Example.env Example.registered Example.with_extra_key
    ≠ Ok (plain_value Example.with_extra_key).
Proof. split; [reflexivity|]. by vm_compute. Qed.

(** C4, at the input on which the code departs from it: an identifier
    with no ['.'] makes the unpacking of the [rsplit] fail with
    [ValueError], which the [except] clause does not list, whatever the
    modules and the registries are. *)
Theorem convert_from_no_separator (env : environment) (st : state)
    (payload : value) :
  _convert_from env st (Example.envelope_dict (VStr "Point") payload)
  = Raise ValueError
  ∧ loads env st (Example.envelope "Point" (Example.xy 1 2))
    = Raise ValueError.
Proof. split; reflexivity. Qed.

(** C10. An object whose [__class__] is not a string comes back from the
    hook as it is. *)
Theorem convert_from_class_not_a_string (env : environment) (st : state)
    (data : gmap string value) (v : value) :
  data !! "__class__" = Some v →
  (∀ s, v ≠ VStr s) →
  _convert_from env st data = Ok (VDict data).
Proof.
  intros Hc Hv. apply convert_from_unresolved.
  by apply (class_not_a_string env data v).
Qed.

Lemma convert_from_class_not_a_string_witness :
  _convert_from Example.env Example.registered
    (Example.envelope_dict (VList [VInt 1; VNone]) (Example.fields 1 2))
  = Ok (VDict (Example.envelope_dict (VList [VInt 1; VNone])
                 (Example.fields 1 2))).
Proof.
  apply (convert_from_class_not_a_string Example.env Example.registered
           _ (VList [VInt 1; VNone])).
  - reflexivity.
  - discriminate.
Defined.

(** ** The encoder, case by case *)

Lemma json_dumps_list hook sort_keys depth l :
  json_dumps hook sort_keys depth (VList l)
  = JArr <$> sequence (json_dumps hook sort_keys depth <$> l).
Proof. by destruct depth. Qed.

Lemma json_dumps_dict hook sort_keys depth d :
  json_dumps hook sort_keys depth (VDict d)
  = JObj <$> sequence_items
               (items sort_keys (json_dumps hook sort_keys depth <$> d)).
Proof. by destruct depth. Qed.

Lemma json_dumps_inst hook sort_keys depth k s :
  json_dumps hook sort_keys depth (VInst k s)
  = (o' ← hook (VInst k s);
     match depth with
     | 0 => Raise RecursionError
     | S n => json_dumps hook sort_keys n o'
     end).
Proof. by destruct depth. Qed.

Lemma sequence_Ok {A} (rs : list (result A)) (xs : list A) :
  sequence rs = Ok xs ↔ Forall2 (λ r x, r = Ok x) rs xs.
Proof.
  revert xs. induction rs as [|r rs IH]; intros xs; simpl.
  - split.
    + intros [= <-]. constructor.
    + by inversion 1.
  - destruct r as [a|e]; simpl.
    + destruct (sequence rs) as [ys|e] eqn:Hs; simpl.
      * split.
        -- intros [= <-]. constructor; [done|]. by apply IH.
        -- inversion 1 as [|? x ? xs' Hx Hxs]; subst.
           apply IH in Hxs. by simplify_eq.
      * split; [done|].
        inversion 1 as [|? x ? xs' Hx Hxs]; subst.
        by apply IH in Hxs.
    + split; [done|]. by inversion 1.
Qed.

Lemma sequence_raises {A} (rs : list (result A)) (e : exn) :
  Raise e ∈ rs → ∃ e', sequence rs = Raise e'.
Proof.
  induction rs as [|r rs IH]; [by inversion 1|].
  intros Hin. simpl. destruct r as [a|e1]; simpl; [|by eexists].
  apply elem_of_cons in Hin as [?|Hin]; [done|].
  destruct (IH Hin) as [e' ->]. by eexists.
Qed.

Lemma sequence_items_raises {A} (its : list (string * result A)) key e :
  (key, Raise e) ∈ its → ∃ e', sequence_items its = Raise e'.
Proof.
  intros Hin. apply (sequence_raises _ e).
  apply list_elem_of_fmap. by exists (key, Raise e).
Qed.

Lemma elem_of_items {A} sort_keys (d : gmap string A) key x :
  (key, x) ∈ items sort_keys d ↔ d !! key = Some x.
Proof.
  unfold items. destruct sort_keys.
  - by rewrite merge_sort_Permutation, elem_of_map_to_list.
  - by rewrite elem_of_map_to_list.
Qed.

Lemma json_dumps_raises_within hook sort_keys depth o data e :
  json_dumps hook sort_keys depth o = Raise e →
  within o data →
  ∃ e', json_dumps hook sort_keys depth data = Raise e'.
Proof.
  intros Ho. induction 1 as [|l x Hx _ [e' IH]|d key x Hx _ [e' IH]].
  - by eexists.
  - rewrite json_dumps_list.
    destruct (sequence_raises (json_dumps hook sort_keys depth <$> l) e')
      as [e'' ->]; [|by eexists].
    apply list_elem_of_fmap. by exists x.
  - rewrite json_dumps_dict.
    destruct (sequence_items_raises
                (items sort_keys (json_dumps hook sort_keys depth <$> d))
                key e') as [e'' ->]; [|by eexists].
    apply elem_of_items. by rewrite lookup_fmap, Hx, <-IH.
Qed.

(** C5 (amended). Encoding an instance whose class has no entry in the
    serializer registry raises [TypeError] with the text [repr] gives for
    the instance followed by [" is not JSON serializable"]; and a value
    that holds such an instance under lists and dictionaries cannot be
    encoded either, the call ends in an exception. *)
Theorem dumps_unsupported_type (repr : value → string) (depth : nat)
    (st : state) (o : value) (escape : bool) (sort_keys : option bool) :
  is_instance o →
  REGISTRY st !! __class__ o = None →
  dumps repr depth st o escape sort_keys
  = Raise (TypeError (repr o +:+ " is not JSON serializable"))
  ∧ ∀ data, within o data →
      ∃ e, dumps repr depth st data escape sort_keys = Raise e.
Proof.
  intros Hi Hn. destruct o as [| | | | | | |k s]; try done.
  assert (json_dumps (_converter repr st) (default true sort_keys) depth
            (VInst k s)
          = Raise (TypeError (repr (VInst k s) +:+ " is not JSON serializable")))
    as Hraise.
  { rewrite json_dumps_inst. unfold _converter. by rewrite Hn. }
  split.
  - unfold dumps. by rewrite Hraise.
  - intros data Hw. unfold dumps.
    destruct (json_dumps_raises_within _ _ _ _ _ _ Hraise Hw) as [e' ->].
    by eexists.
Qed.

Lemma dumps_unsupported_type_witness :
  dumps Example.repr 5 empty_registries (Example.point 1 2) false None
  = Raise (TypeError "<object> is not JSON serializable")
  ∧ ∃ e, dumps Example.repr 5 empty_registries
           (VList [VInt 0; VDict (<["p" := Example.point 1 2]> ∅)])
           false None = Raise e.
Proof.
  destruct (dumps_unsupported_type Example.repr 5 empty_registries
              (Example.point 1 2) false None) as [H1 H2].
  - exact I.
  - reflexivity.
  - split; [exact H1|]. apply H2.
    apply (within_list _ _ (VDict (<["p" := Example.point 1 2]> ∅))).
    + apply list_elem_of_In. simpl. tauto.
    + apply (within_dict _ _ "p" (Example.point 1 2)); [reflexivity|].
      apply within_here.
Defined.

(** C5, as stated, fails: the message is built from [repr] of the value,
    and need not hold the name of its class. *)
Lemma unsupported_type_error_need_not_name_the_type :
  is_instance (Example.point 1 2)
  ∧ REGISTRY empty_registries !! __class__ (Example.point 1 2) = None
  ∧ dumps Example.repr 5 empty_registries (Example.point 1 2) false None
    = Raise (TypeError "<object> is not JSON serializable")
  ∧ String.index 0 (__name__ (__class__ (Example.point 1 2)))
      "<object> is not JSON serializable" = None.
Proof. repeat split. Qed.

(** ** Decoding whole documents *)

Lemma json_induction (P : json → Prop) :
  P JNull →
  (∀ b, P (JBool b)) →
  (∀ z, P (JInt z)) →
  (∀ lit, P (JFloat lit)) →
  (∀ s, P (JStr s)) →
  (∀ l, Forall P l → P (JArr l)) →
  (∀ members, Forall (λ kj, P kj.2) members → P (JObj members)) →
  ∀ doc, P doc.
Proof.
  intros Hnull Hbool Hint Hfloat Hstr Harr Hobj.
  fix IH 1.
  intros [|b|z|lit|s|l|members];
    [apply Hnull|apply Hbool|apply Hint|apply Hfloat|apply Hstr| |].
  - apply Harr. induction l as [|x l IHl]; constructor; [apply IH|apply IHl].
  - apply Hobj.
    induction members as [|[key x] members IHm]; constructor;
      [apply IH|apply IHm].
Qed.

Lemma sequence_fmap_Ok {A B} (f : A → result B) (g : A → B) (l : list A) :
  Forall (λ a, f a = Ok (g a)) l → sequence (f <$> l) = Ok (g <$> l).
Proof.
  induction 1 as [|a l Ha _ IH]; [done|].
  csimpl. by rewrite Ha, IH.
Qed.

Lemma sequence_items_fmap_Ok {A B} (f : A → result B) (g : A → B)
    (l : list (string * A)) :
  Forall (λ ka, f ka.2 = Ok (g ka.2)) l →
  sequence_items ((λ ka, (ka.1, f ka.2)) <$> l)
  = Ok ((λ ka, (ka.1, g ka.2)) <$> l).
Proof.
  intros Hl. unfold sequence_items. rewrite <-list_fmap_compose.
  apply sequence_fmap_Ok. eapply Forall_impl; [exact Hl|].
  intros [key a] Ha. simpl in *. by rewrite Ha.
Qed.

(** C2 (amended). On a document in which every object either has no
    [__class__], or has one that is not a string, or has a dotted one
    whose module cannot be imported or does not define the name, [loads]
    raises nothing and returns the plain value of the document. *)
Theorem loads_total_on_foreign_documents (env : environment) (st : state)
    (doc : json) :
  foreign_document env doc →
  loads env st doc = Ok (plain_value doc).
Proof.
  unfold loads.
  induction doc as [|b|z|lit|s|l IH|members IH] using json_induction;
    intros Hf; try done.
  - inversion Hf as [| | | | |l' Hl|]; subst. simpl.
    rewrite (sequence_fmap_Ok _ plain_value); [done|].
    apply Forall_forall. intros x Hx.
    rewrite Forall_forall in IH, Hl. by apply IH, Hl.
  - inversion Hf as [| | | | | |members' Hm Hu]; subst. simpl.
    rewrite (sequence_items_fmap_Ok _ plain_value).
    + simpl. by apply convert_from_unresolved.
    + apply Forall_forall. intros x Hx.
      rewrite Forall_forall in IH, Hm. by apply IH, Hm.
Qed.

Lemma loads_total_on_foreign_documents_witness :
  loads Example.env Example.registered Example.foreign
  = Ok (plain_value Example.foreign).
Proof.
  apply loads_total_on_foreign_documents.
  apply foreign_arr.
  apply Forall_cons_2; [|apply Forall_cons_2; [|apply Forall_cons_2;
    [|apply Forall_cons_2; [|apply Forall_nil_2]]]].
  - apply foreign_obj.
    + apply Forall_cons_2; [apply foreign_str|apply Forall_nil_2].
    + apply no_class_key. vm_compute. reflexivity.
  - apply foreign_obj.
    + apply Forall_cons_2; [apply foreign_int|].
      apply Forall_cons_2; [apply foreign_null|apply Forall_nil_2].
    + apply (class_not_a_string _ _ (VInt 3)).
      * vm_compute. reflexivity.
      * discriminate.
  - apply foreign_obj.
    + apply Forall_cons_2; [apply foreign_str|].
      apply Forall_cons_2; [apply foreign_null|apply Forall_nil_2].
    + apply (module_not_importable _ _ "nowhere.Thing" "nowhere" "Thing").
      * vm_compute. reflexivity.
      * reflexivity.
      * reflexivity.
  - apply foreign_obj.
    + apply Forall_cons_2; [apply foreign_str|apply Forall_nil_2].
    + apply (name_not_in_module _ _ "pkg.Missing" "pkg" "Missing"
               Example.pkg).
      * vm_compute. reflexivity.
      * reflexivity.
      * reflexivity.
      * vm_compute. reflexivity.
Defined.

(** C2, as stated, fails: a document that names a class which can be
    found but has no registered function makes [loads] raise. *)
Lemma loads_is_not_total :
  ¬ ∃ v, loads Example.env empty_registries
           (Example.envelope "pkg.Point" (Example.xy 1 2)) = Ok v.
Proof. intros [v Hv]. by vm_compute in Hv. Qed.

(** ** Induction on values *)

Lemma value_size_elem (x : value) (l : list value) :
  x ∈ l → value_size x < value_size (VList l).
Proof.
  simpl. induction 1 as [x l|x y l _ IH]; simpl; lia.
Qed.

Lemma value_size_lookup (d : gmap string value) (key : string) (x : value) :
  d !! key = Some x → value_size x < value_size (VDict d).
Proof.
  intros Hx. simpl.
  rewrite (map_fold_delete_L _ _ key x d); [lia| |done].
  intros; lia.
Qed.

Lemma value_induction (P : value → Prop) :
  P VNone →
  (∀ b, P (VBool b)) →
  (∀ z, P (VInt z)) →
  (∀ lit, P (VFloat lit)) →
  (∀ s, P (VStr s)) →
  (∀ l, Forall P l → P (VList l)) →
  (∀ d, map_Forall (λ _, P) d → P (VDict d)) →
  (∀ k s, P s → P (VInst k s)) →
  ∀ v, P v.
Proof.
  intros Hnone Hbool Hint Hfloat Hstr Hlist Hdict Hinst v.
  remember (value_size v) as n eqn:Hn. revert v Hn.
  induction n as [n IH] using lt_wf_ind. intros v ->.
  destruct v as [|b|z|lit|s|l|d|k s];
    [apply Hnone|apply Hbool|apply Hint|apply Hfloat|apply Hstr| | |].
  - apply Hlist, Forall_forall. intros x Hx.
    apply (IH (value_size x)); [by apply value_size_elem|done].
  - apply Hdict. intros key x Hx.
    apply (IH (value_size x)); [by apply (value_size_lookup d key)|done].
  - apply Hinst. apply (IH (value_size s)); simpl; [lia|done].
Qed.

(** ** The order of the keys *)

Lemma string_leb_trans (s1 s2 s3 : string) :
  String.leb s1 s2 = true → String.leb s2 s3 = true → String.leb s1 s3 = true.
Proof.
  unfold String.leb. revert s2 s3.
  induction s1 as [|a s1 IH]; intros [|b s2] [|c s3]; simpl; try done.
  unfold Ascii.compare.
  destruct (N.compare_spec (N_of_ascii a) (N_of_ascii b)),
           (N.compare_spec (N_of_ascii b) (N_of_ascii c)),
           (N.compare_spec (N_of_ascii a) (N_of_ascii c));
    try done; try lia; apply IH.
Qed.

Lemma item_le_trans {A} : Transitive (@item_le A).
Proof. intros a b c. apply string_leb_trans. Qed.

Lemma item_le_total {A} : Total (@item_le A).
Proof. intros a b. apply String.leb_total. Qed.

Lemma merge_sort_items_sorted {A} (l : list (string * A)) :
  StronglySorted item_le (merge_sort item_le l).
Proof.
  apply (@StronglySorted_merge_sort _ item_le _ item_le_trans item_le_total).
Qed.

Lemma items_sorted {A} (d : gmap string A) :
  StronglySorted key_le (items true d).*1.
Proof.
  unfold items.
  apply (StronglySorted_fmap fst item_le key_le); [done|].
  apply merge_sort_items_sorted.
Qed.

Lemma sequence_items_Ok {A} (its : list (string * result A))
    (ms : list (string * A)) :
  sequence_items its = Ok ms
  ↔ Forall2 (λ kr ka, kr.1 = ka.1 ∧ kr.2 = Ok ka.2) its ms.
Proof.
  unfold sequence_items. rewrite sequence_Ok, Forall2_fmap_l.
  split; intros H; (eapply Forall2_impl; [exact H|]);
    intros [key r] [key' a]; simpl; destruct r as [b|e]; simpl.
  - by intros [= -> ->].
  - done.
  - by intros [-> [= ->]].
  - by intros [_ ?].
Qed.

Lemma sequence_items_keys {A} (its : list (string * result A))
    (ms : list (string * A)) :
  sequence_items its = Ok ms → ms.*1 = its.*1.
Proof.
  rewrite sequence_items_Ok.
  induction 1 as [|kr ka its ms [Hk _] _ IH]; [done|].
  csimpl. by rewrite Hk, IH.
Qed.

Lemma Forall2_transfer {A B} (R : A → B → Prop) (Q : A → Prop)
    (S : B → Prop) (xs : list A) (ys : list B) :
  Forall2 R xs ys → Forall Q xs →
  (∀ x y, R x y → Q x → S y) →
  Forall S ys.
Proof.
  induction 1 as [|x y xs ys Hxy _ IH]; [constructor|].
  intros [Hx Hxs]%Forall_cons HRQ. constructor; eauto.
Qed.

Lemma json_dumps_sorted hook depth o j :
  json_dumps hook true depth o = Ok j → sorted_document j.
Proof.
  revert o j. induction depth as [depth IHd] using lt_wf_ind. intros o.
  induction o as [|b|z|lit|s|l IH|d IH|k s _] using value_induction;
    intros j Hj.
  - destruct depth; simplify_eq/=; constructor.
  - destruct depth; simplify_eq/=; constructor.
  - destruct depth; simplify_eq/=; constructor.
  - destruct depth; simplify_eq/=; constructor.
  - destruct depth; simplify_eq/=; constructor.
  - rewrite json_dumps_list in Hj.
    destruct (sequence _) as [xs|] eqn:Hs; simplify_eq/=.
    apply sequence_Ok, Forall2_fmap_l in Hs.
    apply sorted_arr.
    apply (Forall2_transfer _ _ _ _ _ Hs IH).
    intros x y Hxy Hx. by apply Hx.
  - rewrite json_dumps_dict in Hj.
    destruct (sequence_items _) as [ms|] eqn:Hs; simplify_eq/=.
    apply sorted_obj.
    + rewrite (sequence_items_keys _ _ Hs). apply items_sorted.
    + apply sequence_items_Ok in Hs.
      apply (Forall2_transfer _
               (λ kr, ∀ a, kr.2 = Ok a → sorted_document a) _ _ _ Hs).
      * apply Forall_forall. intros [key r] Hin a Hr.
        apply (elem_of_items true) in Hin.
        rewrite lookup_fmap in Hin.
        apply fmap_Some in Hin as (x & Hx & ->).
        by apply (IH key x Hx).
      * intros kr ka [_ Hr] Hkr. by apply Hkr.
  - rewrite json_dumps_inst in Hj.
    destruct (hook _) as [o'|]; simplify_eq/=.
    destruct depth as [|n]; simplify_eq/=.
    apply (IHd n (Nat.lt_succ_diag_r n) o' j Hj).
Qed.

Lemma items_envelope {A} (a b : A) :
  items true (<["__class__" := a]> (<["__value__" := b]> ∅))
  = [("__class__", a); ("__value__", b)].
Proof. reflexivity. Qed.

(** ** Encoding a registered type *)

(** C7. For a value whose class has a registered serializer, the hook
    builds the envelope with the identifier [module.name] and the payload
    the function returns; when the value is one the codec hands to the
    hook and the payload is encoded, [dumps] with its default options
    writes that envelope, [__class__] before [__value__]; and every
    document [dumps] writes with its default options has the keys of each
    object in increasing order. *)
Theorem dumps_registered_type (repr : value → string) (st : state)
    (o : value) (encode_fn : handler) (payload : value) :
  REGISTRY st !! __class__ o = Some encode_fn →
  encode_fn o = Ok payload →
  _converter repr st o
  = Ok (VDict (<["__class__" :=
                   VStr (__module__ (__class__ o) +:+ "."
                           +:+ __name__ (__class__ o))]>
                 (<["__value__" := payload]> ∅)))
  ∧ (∀ depth encoded,
       is_instance o →
       json_dumps (_converter repr st) true depth payload = Ok encoded →
       dumps repr (S depth) st o false None
       = Ok (JObj [("__class__",
                    JStr (__module__ (__class__ o) +:+ "."
                            +:+ __name__ (__class__ o)));
                   ("__value__", encoded)]))
  ∧ ∀ data n doc,
      dumps repr n st data false None = Ok doc → sorted_document doc.
Proof.
  intros Hreg Hfn.
  assert (_converter repr st o
          = Ok (VDict (<["__class__" :=
                           VStr (__module__ (__class__ o) +:+ "."
                                   +:+ __name__ (__class__ o))]>
                         (<["__value__" := payload]> ∅)))) as Hconv.
  { unfold _converter. by rewrite Hreg, Hfn. }
  split; [done|]. split.
  - intros depth encoded Hi Hp.
    destruct o as [| | | | | | |k s]; try done.
    unfold dumps. simpl default.
    rewrite json_dumps_inst, Hconv. simpl mbind at 1.
    cbv beta iota.
    rewrite json_dumps_dict, !fmap_insert, fmap_empty, items_envelope.
    unfold sequence_items. csimpl.
    rewrite Hp. simpl. by destruct depth.
  - intros data n doc. unfold dumps. simpl default.
    destruct (json_dumps _ _ n data) as [j|] eqn:Hj; simpl; [|done].
    intros [= <-]. by apply (json_dumps_sorted _ _ _ _ Hj).
Qed.

Lemma dumps_registered_type_witness :
  _converter Example.repr Example.registered (Example.point 1 2)
  = Ok (VDict (Example.envelope_dict (VStr "pkg.Point") (Example.fields 1 2)))
  ∧ dumps Example.repr 1 Example.registered (Example.point 1 2) false None
    = Ok (JObj [("__class__", JStr "pkg.Point");
                ("__value__", JObj [("x", JInt 1); ("y", JInt 2)])]).
Proof.
  destruct (dumps_registered_type Example.repr Example.registered
              (Example.point 1 2) Example.serialize_point
              (Example.fields 1 2)) as (H1 & H2 & _).
  - reflexivity.
  - reflexivity.
  - split; [exact H1|].
    apply (H2 0 (Example.xy 1 2)); [exact I|reflexivity].
Defined.

(** ** Dictionaries and their items *)

Lemma dict_of_pairs_snoc {A} (pairs : list (string * A)) key x :
  dict_of_pairs (pairs ++ [(key, x)]) = <[key := x]> (dict_of_pairs pairs).
Proof. unfold dict_of_pairs. by rewrite foldl_app. Qed.

Lemma dict_of_pairs_lookup {A} (pairs : list (string * A)) key x :
  NoDup pairs.*1 →
  dict_of_pairs pairs !! key = Some x ↔ (key, x) ∈ pairs.
Proof.
  induction pairs as [|[key' x'] pairs IH] using rev_ind; intros Hnd.
  - unfold dict_of_pairs. simpl. rewrite lookup_empty.
    split; [done|by inversion 1].
  - rewrite fmap_app in Hnd. apply NoDup_app in Hnd as (Hnd & Hfresh & _).
    rewrite dict_of_pairs_snoc, lookup_insert_Some, elem_of_app,
      list_elem_of_singleton, (IH Hnd).
    split.
    + intros [[-> ->]|[_ Hin]]; [by right|by left].
    + intros [Hin|[= -> ->]]; [|by left].
      right. split; [|done]. intros ->.
      apply (Hfresh key); [|simpl; by left].
      apply list_elem_of_fmap. by exists (key, x).
Qed.

Lemma items_Permutation {A} sort_keys (d : gmap string A) :
  items sort_keys d ≡ₚ map_to_list d.
Proof.
  unfold items. destruct sort_keys; [apply merge_sort_Permutation|done].
Qed.

Lemma items_NoDup {A} sort_keys (d : gmap string A) :
  NoDup (items sort_keys d).*1.
Proof. rewrite items_Permutation. apply NoDup_fst_map_to_list. Qed.

Lemma dict_of_pairs_items {A} sort_keys (d : gmap string A) :
  dict_of_pairs (items sort_keys d) = d.
Proof.
  apply map_eq. intros key. apply option_eq. intros x.
  rewrite dict_of_pairs_lookup by apply items_NoDup.
  apply elem_of_items.
Qed.

Lemma items_fmap {A B} (f : A → B) sort_keys (d : gmap string A) :
  items sort_keys (f <$> d) = prod_map id f <$> items sort_keys d.
Proof.
  unfold items. rewrite map_to_list_fmap. destruct sort_keys; [|done].
  apply (StronglySorted_unique_strong item_le).
  - intros [k1 b1] [k2 b2] H1 H2 Hle1 Hle2.
    rewrite merge_sort_Permutation in H1.
    rewrite (merge_sort_Permutation item_le (map_to_list d)) in H2.
    rewrite <-map_to_list_fmap, elem_of_map_to_list in H1, H2.
    assert (k1 = k2) as -> by by apply String.leb_antisym.
    congruence.
  - apply merge_sort_items_sorted.
  - apply (StronglySorted_fmap _ item_le item_le).
    + by intros [] [].
    + apply merge_sort_items_sorted.
  - by rewrite !merge_sort_Permutation.
Qed.

(** ** Encoding, then decoding *)

Lemma sequence_round_trip {A B} (enc : A → result B) (dec : B → result A)
    (l : list A) :
  Forall (λ x, ∃ j, enc x = Ok j ∧ dec j = Ok x) l →
  ∃ js, sequence (enc <$> l) = Ok js ∧ sequence (dec <$> js) = Ok l.
Proof.
  induction 1 as [|x l (j & Hj & Hd) _ (js & Hjs & Hds)]; [by exists []|].
  exists (j :: js). csimpl. by rewrite Hj, Hjs, Hd, Hds.
Qed.

Lemma sequence_items_cons {A} key (r : result A) its :
  sequence_items ((key, r) :: its)
  = (a ← r; ms ← sequence_items its; Ok ((key, a) :: ms)).
Proof. unfold sequence_items. csimpl. by destruct r. Qed.

Lemma sequence_items_round_trip {A B} (enc : A → result B)
    (dec : B → result A) (l : list (string * A)) :
  Forall (λ kx, ∃ j, enc kx.2 = Ok j ∧ dec j = Ok kx.2) l →
  ∃ ms, sequence_items (prod_map id enc <$> l) = Ok ms
        ∧ sequence_items ((λ kj, (kj.1, dec kj.2)) <$> ms) = Ok l.
Proof.
  induction 1 as [|[key x] l (j & Hj & Hd) _ (ms & Hms & Hds)];
    [by exists []|].
  exists ((key, j) :: ms). simpl in Hj, Hd.
  rewrite !fmap_cons. simpl prod_map. simpl fst. simpl snd.
  rewrite !sequence_items_cons, Hj, Hms, Hd, Hds. done.
Qed.

Lemma json_dumps_loads_list hook object_hook sort_keys n l :
  Forall (λ x, ∃ j, json_dumps hook sort_keys n x = Ok j
                    ∧ json_loads object_hook j = Ok x) l →
  ∃ js, json_dumps hook sort_keys n (VList l) = Ok (JArr js)
        ∧ json_loads object_hook (JArr js) = Ok (VList l).
Proof.
  intros (js & Hjs & Hback)%sequence_round_trip.
  exists js. rewrite json_dumps_list, Hjs. split; [done|].
  simpl. by rewrite Hback.
Qed.

Lemma json_dumps_loads_dict hook object_hook sort_keys n d :
  (∀ key x, d !! key = Some x →
     ∃ j, json_dumps hook sort_keys n x = Ok j
          ∧ json_loads object_hook j = Ok x) →
  ∃ ms, json_dumps hook sort_keys n (VDict d) = Ok (JObj ms)
        ∧ json_loads object_hook (JObj ms) = object_hook d.
Proof.
  intros Hd. rewrite json_dumps_dict, items_fmap.
  destruct (sequence_items_round_trip (json_dumps hook sort_keys n)
              (json_loads object_hook) (items sort_keys d))
    as (ms & Hms & Hback).
  { apply Forall_forall. intros [key x] Hin. simpl.
    apply elem_of_items in Hin. by apply (Hd key x). }
  exists ms. rewrite Hms. split; [done|].
  simpl. rewrite Hback. simpl. by rewrite dict_of_pairs_items.
Qed.

Lemma faithful_induction env st (P : value → Prop) :
  P VNone →
  (∀ b, P (VBool b)) →
  (∀ z, P (VInt z)) →
  (∀ lit, P (VFloat lit)) →
  (∀ s, P (VStr s)) →
  (∀ l, Forall P l → P (VList l)) →
  (∀ d, map_Forall (λ _, P) d → unresolved env d → P (VDict d)) →
  (∀ k s encode_fn decode_fn payload,
     REGISTRY st !! k = Some encode_fn →
     DESERIALIZE_REGISTRY st !! k = Some decode_fn →
     encode_fn (VInst k s) = Ok payload →
     decode_fn payload = Ok (VInst k s) →
     resolves env (__module__ k +:+ "." +:+ __name__ k) k →
     P payload →
     P (VInst k s)) →
  ∀ v, faithful env st v → P v.
Proof.
  intros Hnone Hbool Hint Hfloat Hstr Hlist Hdict Hinst.
  fix IH 2.
  intros v [|b|z|lit|s|l Hl|d Hd Hu|k s encode_fn decode_fn payload
            Hr Hdr He Hde Hres Hp];
    [apply Hnone|apply Hbool|apply Hint|apply Hfloat|apply Hstr| | |].
  - apply Hlist.
    induction Hl as [|x l Hx _ IHl]; constructor; [apply IH, Hx|apply IHl].
  - apply Hdict; [|exact Hu].
    intros key x Hx. apply IH, (Hd key x Hx).
  - apply (Hinst k s encode_fn decode_fn payload Hr Hdr He Hde Hres).
    apply IH, Hp.
Qed.

Lemma Forall_eventually {A} (Q : nat → A → Prop) (l : list A) :
  Forall (λ x, ∃ n0, ∀ n, (n0 ≤ n)%nat → Q n x) l →
  ∃ n0, ∀ n, (n0 ≤ n)%nat → Forall (Q n) l.
Proof.
  induction 1 as [|x l [n1 H1] _ [n2 H2]].
  - exists 0. constructor.
  - exists (n1 `max` n2). intros n Hn.
    constructor; [apply H1|apply H2]; lia.
Qed.

Lemma map_Forall_eventually {A} (Q : nat → A → Prop) (d : gmap string A) :
  map_Forall (λ _ x, ∃ n0, ∀ n, (n0 ≤ n)%nat → Q n x) d →
  ∃ n0, ∀ n, (n0 ≤ n)%nat → map_Forall (λ _, Q n) d.
Proof.
  intros Hd.
  destruct (Forall_eventually (λ n kx, Q n kx.2) (map_to_list d))
    as [n0 Hn0].
  { apply Forall_forall. intros [key x] Hin%elem_of_map_to_list.
    apply (Hd key x Hin). }
  exists n0. intros n Hn key x Hx.
  specialize (Hn0 n Hn). rewrite Forall_forall in Hn0.
  by apply (Hn0 (key, x)), elem_of_map_to_list.
Qed.

Lemma json_dumps_loads_faithful repr env st o :
  faithful env st o →
  ∃ n0, ∀ n, (n0 ≤ n)%nat → ∀ sort_keys,
    ∃ j, json_dumps (_converter repr st) sort_keys n o = Ok j
         ∧ json_loads (_convert_from env st) j = Ok o.
Proof.
  induction 1 as [|b|z|lit|s|l IH|d IH Hu
                  |k s encode_fn decode_fn payload Hr Hdr He Hde Hres IH]
    using faithful_induction.
  - exists 0. intros [|n] _ sk; by eexists.
  - exists 0. intros [|n] _ sk; by eexists.
  - exists 0. intros [|n] _ sk; by eexists.
  - exists 0. intros [|n] _ sk; by eexists.
  - exists 0. intros [|n] _ sk; by eexists.
  - apply Forall_eventually in IH as [n0 Hn0].
    exists n0. intros n Hn sk.
    destruct (json_dumps_loads_list (_converter repr st)
                (_convert_from env st) sk n l) as (js & Hjs & Hback).
    { eapply Forall_impl; [exact (Hn0 n Hn)|]. intros x Hx. apply Hx. }
    by exists (JArr js).
  - apply map_Forall_eventually in IH as [n0 Hn0].
    exists n0. intros n Hn sk.
    destruct (json_dumps_loads_dict (_converter repr st)
                (_convert_from env st) sk n d) as (ms & Hms & Hback).
    { intros key x Hx. apply (Hn0 n Hn key x Hx). }
    exists (JObj ms). split; [done|].
    rewrite Hback. by apply convert_from_unresolved.
  - destruct IH as [n0 Hn0].
    exists (S n0). intros [|m] Hn sk; [lia|].
    assert (_converter repr st (VInst k s)
            = Ok (VDict (<["__class__" :=
                             VStr (__module__ k +:+ "." +:+ __name__ k)]>
                           (<["__value__" := payload]> ∅)))) as Hconv.
    { unfold _converter. simpl __class__. by rewrite Hr, He. }
    rewrite json_dumps_inst, Hconv. simpl mbind at 1. cbv beta iota.
    destruct (json_dumps_loads_dict (_converter repr st)
                (_convert_from env st) sk m
                (<["__class__" :=
                     VStr (__module__ k +:+ "." +:+ __name__ k)]>
                   (<["__value__" := payload]> ∅)))
      as (ms & Hms & Hback).
    { intros key x [[<- <-]|[_ [[<- <-]|[_ Hx]]%lookup_insert_Some]]
        %lookup_insert_Some.
      - destruct m; by eexists.
      - apply Hn0. lia.
      - by rewrite lookup_empty in Hx. }
    exists (JObj ms). split; [done|].
    rewrite Hback.
    rewrite (convert_from_resolved env st _
               (__module__ k +:+ "." +:+ __name__ k) k); [| |exact Hres].
    + unfold getitem. rewrite lookup_insert_ne, lookup_insert_eq by done.
      simpl. unfold deserialize. by rewrite Hdr.
    + by rewrite lookup_insert_eq.
Qed.

(** C6 (amended). Encoding followed by decoding gives back every
    faithful value, once the recursion limit leaves room for the nesting
    of its conversions, whatever [sort_keys] is: in particular an instance
    of a class that [import_module] and [getattr] find again from
    [module.name], whose two registered functions undo each other on it,
    and whose payload is made of scalars, lists, dictionaries the hook
    leaves alone, and instances of the same kind. *)
Theorem round_trip (repr : value → string) (env : environment) (st : state)
    (o : value) :
  faithful env st o →
  ∃ n0, ∀ n sort_keys, (n0 ≤ n)%nat →
    ∃ doc, dumps repr n st o false sort_keys = Ok doc
           ∧ loads env st doc = Ok o.
Proof.
  intros [n0 Hn0]%(json_dumps_loads_faithful repr).
  exists n0. intros n sort_keys Hn.
  destruct (Hn0 n Hn (default true sort_keys)) as (doc & Hdoc & Hback).
  exists doc. unfold dumps, loads. by rewrite Hdoc.
Qed.

Lemma resolves_point : resolves Example.env "pkg.Point" Example.Point.
Proof. exists "pkg", "Point", Example.pkg. by repeat split. Qed.

Lemma resolves_segment : resolves Example.env "pkg.Segment" Example.Segment.
Proof. exists "pkg", "Segment", Example.pkg. by repeat split. Qed.

Lemma faithful_point (x y : Z) :
  faithful Example.env Example.registered (Example.point x y).
Proof.
  apply (faithful_inst _ _ _ _ Example.serialize_point
           Example.deserialize_point (Example.fields x y));
    [reflexivity|reflexivity|reflexivity|reflexivity|apply resolves_point|].
  apply faithful_dict.
  - intros key v [[_ <-]|[_ [[_ <-]|[_ Hv]]%lookup_insert_Some]]
      %lookup_insert_Some.
    + apply faithful_int.
    + apply faithful_int.
    + by rewrite lookup_empty in Hv.
  - apply no_class_key. reflexivity.
Qed.

Lemma round_trip_witness :
  ∃ n0, ∀ n sort_keys, (n0 ≤ n)%nat →
    ∃ doc, dumps Example.repr n Example.registered Example.nested false
             sort_keys = Ok doc
           ∧ loads Example.env Example.registered doc = Ok Example.nested.
Proof.
  apply (round_trip Example.repr Example.env Example.registered
           Example.nested).
  apply (faithful_inst _ _ _ _ Example.serialize_segment
           Example.deserialize_segment
           (VDict (<["from" := Example.point 1 2]>
                     (<["to" := Example.point 3 4]> ∅))));
    [reflexivity|reflexivity|reflexivity|reflexivity|apply resolves_segment|].
  apply faithful_dict.
  - intros key v [[_ <-]|[_ [[_ <-]|[_ Hv]]%lookup_insert_Some]]
      %lookup_insert_Some.
    + apply faithful_point.
    + apply faithful_point.
    + by rewrite lookup_empty in Hv.
  - apply no_class_key. reflexivity.
Defined.

(** The same round trip, computed. *)
Example round_trip_nested :
  dumps Example.repr 2 Example.registered Example.nested false None
  = Ok (Example.envelope "pkg.Segment"
          (JObj [("from", Example.envelope "pkg.Point" (Example.xy 1 2));
                 ("to", Example.envelope "pkg.Point" (Example.xy 3 4))]))
  ∧ loads Example.env Example.registered
      (Example.envelope "pkg.Segment"
         (JObj [("from", Example.envelope "pkg.Point" (Example.xy 1 2));
                ("to", Example.envelope "pkg.Point" (Example.xy 3 4))]))
    = Ok Example.nested.
Proof. split; reflexivity. Qed.

(** C6, as stated, fails: [Hidden] has both functions registered and they
    undo each other, but the module does not give the class back under its
    name, so decoding returns the envelope as a dictionary. *)
Lemma round_trip_needs_a_findable_class :
  REGISTRY Example.registered_hidden !! Example.Hidden
    = Some Example.serialize_hidden
  ∧ DESERIALIZE_REGISTRY Example.registered_hidden !! Example.Hidden
    = Some Example.deserialize_hidden
  ∧ (∀ st, Example.serialize_hidden (VInst Example.Hidden st)
             ≫= Example.deserialize_hidden = Ok (VInst Example.Hidden st))
  ∧ (∀ data, Example.deserialize_hidden data ≫= Example.serialize_hidden
             = Ok data)
  ∧ dumps Example.repr 5 Example.registered_hidden Example.hidden false None
    = Ok (Example.envelope "pkg.Hidden" (JInt 7))
  ∧ loads Example.env Example.registered_hidden
      (Example.envelope "pkg.Hidden" (JInt 7))
    = Ok (VDict (Example.envelope_dict (VStr "pkg.Hidden") (VInt 7)))
  ∧ loads Example.env Example.registered_hidden
      (Example.envelope "pkg.Hidden" (JInt 7))
    ≠ Ok Example.hidden.
Proof. repeat split. by vm_compute. Qed.

(** ** Cutting an identifier at its last dot *)

Lemma rsplit_last_Some (s a b : string) :
  rsplit_last s = Some (a, b) →
  s = a +:+ "." +:+ b ∧ rsplit_last b = None.
Proof.
  revert a. induction s as [|c s IH]; intros a; simpl; [done|].
  destruct (rsplit_last s) as [[a' b']|] eqn:Hs.
  - intros [= <- <-]. destruct (IH a' eq_refl) as [-> Hb]. by split.
  - destruct (Ascii.eqb_spec c "."%char) as [->|]; [|done].
    by intros [= <- <-].
Qed.

Lemma rsplit_last_app (a b : string) :
  rsplit_last b = None → rsplit_last (a +:+ "." +:+ b) = Some (a, b).
Proof.
  intros Hb. induction a as [|c a IH].
  - change (rsplit_last (String "." b) = Some (EmptyString, b)).
    simpl. by rewrite Hb.
  - change (rsplit_last (String c (a +:+ "." +:+ b))
            = Some (String c a, b)).
    simpl. by rewrite IH.
Qed.

(** A class is found again from its own identifier when its name has no
    dot and its module, importable, holds it under that name. *)
Lemma resolves_own_identifier env (k : klass) (ns : namespace) :
  rsplit_last (__name__ k) = None →
  import_module env (__module__ k) = Ok ns →
  ns !! __name__ k = Some k →
  resolves env (__module__ k +:+ "." +:+ __name__ k) k.
Proof.
  intros Hname Hmod Hns. exists (__module__ k), (__name__ k), ns.
  split; [by apply rsplit_last_app|done].
Qed.

Example rsplit_dotted : rsplit "tests.unit.test_ejson.Person"
                        = ["tests.unit.test_ejson"; "Person"].
Proof. reflexivity. Qed.

Example rsplit_plain : rsplit "Person" = ["Person"].
Proof. reflexivity. Qed.

(** * Further properties of the code *)

(** ** The deserializer registry, and the two registries side by side *)

(** X1. Clearing the deserializer registry makes [deserialize] raise its
    [TypeError] for every class; registering two functions for one class
    leaves the second in effect: the lookup yields it, the state is the
    one the second alone would have produced, and [deserialize] calls
    it. *)
Theorem deserializer_registry_isolation (st : state) (klass : klass)
    (f1 f2 : handler) :
  (∀ k data,
     deserialize (cleanup_deserialization_registry st) k data
     = Raise (TypeError
                ("There is no deserializer registered to handle instances of '"
                   +:+ __name__ k +:+ "'")))
  ∧ DESERIALIZE_REGISTRY
      (register_deserializer klass f2
         (register_deserializer klass f1 st).2).2 !! klass = Some f2
  ∧ (register_deserializer klass f2 (register_deserializer klass f1 st).2).2
    = (register_deserializer klass f2 st).2
  ∧ ∀ data,
      deserialize
        (register_deserializer klass f2 (register_deserializer klass f1 st).2).2
        klass data
      = f2 data.
Proof.
  split; [|split; [|split]].
  - intros k data. unfold deserialize. simpl. by rewrite lookup_empty.
  - simpl. apply lookup_insert_eq.
  - simpl. by rewrite insert_insert_eq.
  - intros data. unfold deserialize. simpl. by rewrite lookup_insert_eq.
Qed.

(** X2. The two registries do not touch each other: registering a
    serializer or clearing the serializers changes nothing to decoding,
    registering a deserializer or clearing the deserializers changes
    nothing to encoding. *)
Theorem registries_are_independent (env : environment)
    (repr : value → string) (depth : nat) (st : state) (klass : klass)
    (f : handler) (doc : json) (data : value) (escape : bool)
    (sort_keys : option bool) :
  loads env (register_serializer klass f st).2 doc = loads env st doc
  ∧ loads env (cleanup_registry st) doc = loads env st doc
  ∧ deserialize (register_serializer klass f st).2 klass data
    = deserialize st klass data
  ∧ dumps repr depth (register_deserializer klass f st).2 data escape sort_keys
    = dumps repr depth st data escape sort_keys
  ∧ dumps repr depth (cleanup_deserialization_registry st) data escape
      sort_keys
    = dumps repr depth st data escape sort_keys.
Proof. by repeat split. Qed.

(** X3. Registering a function for one class changes nothing to the
    dispatch of another: [deserialize] and [_converter] answer for it as
    before. *)
Theorem registration_leaves_other_classes (repr : value → string)
    (st : state) (klass other : klass) (f : handler) (s data : value) :
  klass ≠ other →
  deserialize (register_deserializer other f st).2 klass data
  = deserialize st klass data
  ∧ _converter repr (register_serializer other f st).2 (VInst klass s)
    = _converter repr st (VInst klass s).
Proof.
  intros Hne. unfold deserialize, _converter. simpl.
  by rewrite !lookup_insert_ne.
Qed.

Lemma registration_leaves_other_classes_witness :
  deserialize
    (register_deserializer Example.Segment Example.failing
       Example.registered).2 Example.Point (Example.fields 1 2)
  = deserialize Example.registered Example.Point (Example.fields 1 2)
  ∧ _converter Example.repr
      (register_serializer Example.Segment Example.failing
         Example.registered).2 (Example.point 1 2)
    = _converter Example.repr Example.registered (Example.point 1 2).
Proof.
  apply (registration_leaves_other_classes Example.repr Example.registered
           Example.Point Example.Segment Example.failing).
  discriminate.
Defined.

(** ** What the hook lets through and what it does not *)

(** X4. An object whose identifier resolves but which has no [__value__]
    makes the hook raise [KeyError]: the payload is read outside the
    [try] block. *)
Theorem convert_from_missing_value (env : environment) (st : state)
    (data : gmap string value) (ident : string) (klass : klass) :
  data !! "__class__" = Some (VStr ident) →
  resolves env ident klass →
  data !! "__value__" = None →
  _convert_from env st data = Raise (KeyError "__value__").
Proof.
  intros Hc Hr Hv. rewrite (convert_from_resolved _ _ _ _ _ Hc Hr).
  unfold getitem. by rewrite Hv.
Qed.

Lemma convert_from_missing_value_witness :
  _convert_from Example.env Example.registered
    (<["__class__" := VStr "pkg.Point"]> ∅)
  = Raise (KeyError "__value__").
Proof.
  apply (convert_from_missing_value Example.env Example.registered _
           "pkg.Point" Example.Point).
  - reflexivity.
  - exists "pkg", "Point", Example.pkg. repeat split; reflexivity.
  - reflexivity.
Defined.

(** X5. When importing the module named by a dotted identifier raises,
    the hook returns the object as it is if the exception is one of
    [ImportError], [AttributeError] and [KeyError], and lets any other
    one through. *)
Theorem convert_from_import_failure (env : environment) (st : state)
    (data : gmap string value) (ident module name : string) (e : exn) :
  data !! "__class__" = Some (VStr ident) →
  rsplit_last ident = Some (module, name) →
  import_module env module = Raise e →
  _convert_from env st data
  = match e with
    | ImportError | AttributeError | KeyError _ => Ok (VDict data)
    | _ => Raise e
    end.
Proof.
  intros Hc Hs Hi. unfold _convert_from, find_klass, getitem.
  rewrite Hc. simpl. unfold rsplit. rewrite Hs. simpl. rewrite Hi. simpl.
  by destruct e.
Qed.

Lemma convert_from_import_failure_witness :
  _convert_from Example.env_broken Example.registered
    (Example.envelope_dict (VStr "broken.Thing") VNone)
  = Raise (OtherError "SyntaxError")
  ∧ _convert_from Example.env_broken Example.registered
      (Example.envelope_dict (VStr "absent.Thing") VNone)
    = Ok (VDict (Example.envelope_dict (VStr "absent.Thing") VNone)).
Proof.
  split.
  - apply (convert_from_import_failure Example.env_broken Example.registered
             _ "broken.Thing" "broken" "Thing" (OtherError "SyntaxError"));
      reflexivity.
  - apply (convert_from_import_failure Example.env_broken Example.registered
             _ "absent.Thing" "absent" "Thing" ImportError);
      reflexivity.
Defined.

(** X6. The envelope [_converter] builds for a class whose name has no
    dot is read back by the [try] block of the hook as exactly that
    module and that name, dots in the module name or not: the block
    imports [__module__] and looks [__name__] up in it. *)
Theorem envelope_names_its_class (repr : value → string) (env : environment)
    (st : state) (o : value) (encode_fn : handler) (payload : value) :
  REGISTRY st !! __class__ o = Some encode_fn →
  encode_fn o = Ok payload →
  rsplit_last (__name__ (__class__ o)) = None →
  ∃ d, _converter repr st o = Ok (VDict d)
       ∧ find_klass env d
         = (ns ← import_module env (__module__ (__class__ o));
            getattr ns (__name__ (__class__ o))).
Proof.
  intros Hr He Hname. eexists. split.
  - unfold _converter. rewrite Hr, He. reflexivity.
  - unfold find_klass, getitem. rewrite lookup_insert_eq. simpl.
    unfold rsplit. by rewrite (rsplit_last_app _ _ Hname).
Qed.

Lemma envelope_names_its_class_witness :
  ∃ d, _converter Example.repr
         (register_serializer Example.Person Example.serialize_point
            empty_registries).2 (VInst Example.Person (Example.fields 1 2))
       = Ok (VDict d)
       ∧ find_klass Example.env d
         = (ns ← import_module Example.env "tests.unit.test_ejson";
            getattr ns "Person").
Proof.
  apply (envelope_names_its_class Example.repr Example.env _
           (VInst Example.Person (Example.fields 1 2))
           Example.serialize_point (Example.fields 1 2));
    reflexivity.
Defined.

(** ** Decoding documents *)

(** X7. Decoding works from the inside out: for an envelope whose
    identifier resolves to a class with a registered function, [loads]
    first decodes the payload, nested envelopes included, then applies
    the function to the outcome; an exception of either step is the
    exception of [loads]. *)
Theorem loads_envelope (env : environment) (st : state) (ident : string)
    (klass : klass) (decode_fn : handler) (payload : json) :
  resolves env ident klass →
  DESERIALIZE_REGISTRY st !! klass = Some decode_fn →
  loads env st (JObj [("__class__", JStr ident); ("__value__", payload)])
  = (decoded ← loads env st payload; decode_fn decoded).
Proof.
  intros Hr Hd. unfold loads. simpl json_loads.
  rewrite !sequence_items_cons. simpl.
  destruct (json_loads (_convert_from env st) payload) as [decoded|e];
    [|done].
  simpl.
  rewrite (convert_from_resolved env st _ ident klass); [| |exact Hr].
  - unfold getitem, dict_of_pairs. simpl. rewrite lookup_insert_eq. simpl.
    unfold deserialize. by rewrite Hd.
  - unfold dict_of_pairs. simpl.
    by rewrite lookup_insert_ne, lookup_insert_eq.
Qed.

Lemma loads_envelope_witness :
  loads Example.env Example.registered
    (JObj [("__class__", JStr "pkg.Segment");
           ("__value__",
            JObj [("from", Example.envelope "pkg.Point" (Example.xy 1 2));
                  ("to", Example.envelope "pkg.Point" (Example.xy 3 4))])])
  = (decoded ← loads Example.env Example.registered
                 (JObj [("from", Example.envelope "pkg.Point" (Example.xy 1 2));
                        ("to", Example.envelope "pkg.Point" (Example.xy 3 4))]);
     Example.deserialize_segment decoded).
Proof.
  apply (loads_envelope Example.env Example.registered "pkg.Segment"
           Example.Segment Example.deserialize_segment).
  - exists "pkg", "Segment", Example.pkg. repeat split; reflexivity.
  - reflexivity.
Defined.

Lemma existsb_false {A} (f : A → bool) (l : list A) :
  existsb f l = false → Forall (λ x, f x = false) l.
Proof.
  induction l as [|x l IH]; simpl; [constructor|].
  intros [Hx Hl]%orb_false_iff. constructor; auto.
Qed.

Lemma dict_of_pairs_lookup_None {A} (pairs : list (string * A)) key :
  key ∉ pairs.*1 → dict_of_pairs pairs !! key = None.
Proof.
  induction pairs as [|[key' x] pairs IH] using rev_ind; intros Hkey.
  - apply lookup_empty.
  - rewrite fmap_app, not_elem_of_app in Hkey. destruct Hkey as [Hp Hk].
    rewrite dict_of_pairs_snoc, lookup_insert_ne; [by apply IH|].
    intros ->. apply Hk. simpl. by left.
Qed.

(** X8. A document none of whose objects has a [__class__] member is
    decoded to its plain value, whatever the modules and the registries
    are. *)
Theorem loads_without_class_keys (env : environment) (st : state)
    (doc : json) :
  mentions_class doc = false →
  loads env st doc = Ok (plain_value doc).
Proof.
  unfold loads.
  induction doc as [|b|z|lit|s|l IH|members IH] using json_induction;
    intros Hm; try done.
  - apply existsb_false in Hm. simpl.
    rewrite (sequence_fmap_Ok _ plain_value); [done|].
    apply Forall_forall. intros x Hx.
    rewrite Forall_forall in IH, Hm. by apply IH, Hm.
  - apply existsb_false in Hm. simpl.
    rewrite (sequence_items_fmap_Ok _ plain_value).
    + simpl. apply convert_from_unresolved, no_class_key.
      apply dict_of_pairs_lookup_None.
      rewrite <-list_fmap_compose. intros Hin.
      apply list_elem_of_fmap in Hin as ([key x] & Hkey & Hin).
      rewrite Forall_forall in Hm. specialize (Hm _ Hin).
      apply orb_false_iff in Hm as [Hneq _].
      simpl in Hkey, Hneq. rewrite <-Hkey in Hneq.
      by rewrite String.eqb_refl in Hneq.
    + apply Forall_forall. intros [key x] Hx.
      rewrite Forall_forall in IH, Hm.
      apply (IH _ Hx). specialize (Hm _ Hx).
      by apply orb_false_iff in Hm as [_ ?].
Qed.

Lemma loads_without_class_keys_witness :
  loads Example.env_broken Example.registered Example.plain_document
  = Ok Example.plain.
Proof.
  apply (loads_without_class_keys Example.env_broken Example.registered
           Example.plain_document).
  reflexivity.
Defined.

(** ** Encoding plain data *)

Lemma json_loads_no_hook (doc : json) :
  json_loads no_hook doc = Ok (plain_value doc).
Proof.
  induction doc as [|b|z|lit|s|l IH|members IH] using json_induction;
    try done.
  - simpl. by rewrite (sequence_fmap_Ok _ plain_value).
  - simpl. rewrite (sequence_items_fmap_Ok _ plain_value); [done|].
    eapply Forall_impl; [exact IH|]. by intros [key x].
Qed.

Lemma json_dumps_native hook sort_keys depth (data : value) :
  native data →
  ∃ j, json_dumps hook sort_keys depth data = Ok j
       ∧ json_loads no_hook j = Ok data.
Proof.
  induction data as [|b|z|lit|s|l IH|d IH|k s _] using value_induction;
    intros Hn.
  - destruct depth; by eexists.
  - destruct depth; by eexists.
  - destruct depth; by eexists.
  - destruct depth; by eexists.
  - destruct depth; by eexists.
  - destruct (json_dumps_loads_list hook no_hook sort_keys depth l)
      as (js & Hjs & Hback).
    { apply Forall_forall. intros x Hx.
      rewrite Forall_forall in IH. apply (IH x Hx).
      intros o Ho. apply Hn. by apply (within_list _ _ x). }
    by exists (JArr js).
  - destruct (json_dumps_loads_dict hook no_hook sort_keys depth d)
      as (ms & Hms & Hback).
    { intros key x Hx. apply (IH key x Hx).
      intros o Ho. apply Hn. by apply (within_dict _ _ key x). }
    by exists (JObj ms).
  - destruct (Hn (VInst k s)); [apply within_here|done].
Qed.

(** X9. Data with no instance in it is encoded whatever the registries,
    the recursion limit and [sort_keys] are, neither hook being needed:
    the document written denotes the data itself. *)
Theorem dumps_native (repr : value → string) (depth : nat) (st : state)
    (data : value) (sort_keys : option bool) :
  native data →
  ∃ doc, dumps repr depth st data false sort_keys = Ok doc
         ∧ plain_value doc = data.
Proof.
  intros Hn.
  destruct (json_dumps_native (_converter repr st) (default true sort_keys)
              depth data Hn) as (j & Hj & Hback).
  exists j. unfold dumps. rewrite Hj. split; [done|].
  rewrite json_loads_no_hook in Hback. by simplify_eq.
Qed.

Lemma native_plain : native Example.plain.
Proof.
  intros o Ho Hi. unfold Example.plain in Ho.
  inversion Ho as [|l x Hx Hw|d key x Hx Hw]; subst.
  - done.
  - apply lookup_insert_Some in Hx
      as [[_ <-]|[_ [[_ <-]|[_ Hx]]%lookup_insert_Some]].
    + inversion Hw; subst; done.
    + inversion Hw as [|l y Hy Hw'|]; subst; [done|].
      apply list_elem_of_singleton in Hy as ->.
      inversion Hw'; subst; done.
    + by rewrite lookup_empty in Hx.
Qed.

Lemma dumps_native_witness :
  ∃ doc, dumps Example.repr 0 empty_registries Example.plain false None
         = Ok doc
         ∧ plain_value doc = Example.plain.
Proof.
  apply (dumps_native Example.repr 0 empty_registries Example.plain None).
  apply native_plain.
Defined.

(** X10. Once the serializer registry is cleared, [dumps] returns a
    document exactly for the data with no instance in it. *)
Theorem dumps_after_cleanup (repr : value → string) (depth : nat)
    (st : state) (data : value) (escape : bool) (sort_keys : option bool) :
  (∃ doc, dumps repr depth (cleanup_registry st) data escape sort_keys
          = Ok doc)
  ↔ native data.
Proof.
  split.
  - intros [doc Hdoc] o Ho Hi.
    destruct o as [| | | | | | |k s]; try done.
    assert (json_dumps (_converter repr (cleanup_registry st))
              (default true sort_keys) depth (VInst k s)
            = Raise (TypeError (repr (VInst k s)
                                  +:+ " is not JSON serializable")))
      as Hraise.
    { rewrite json_dumps_inst. unfold _converter. simpl.
      by rewrite lookup_empty. }
    destruct (json_dumps_raises_within _ _ _ _ _ _ Hraise Ho) as [e He].
    unfold dumps in Hdoc. by rewrite He in Hdoc.
  - intros Hn.
    destruct (json_dumps_native (_converter repr (cleanup_registry st))
                (default true sort_keys) depth data Hn) as (j & Hj & _).
    unfold dumps. rewrite Hj. simpl. destruct escape; by eexists.
Qed.

(** X11. Whatever [sort_keys] is, the object [dumps] writes for a
    dictionary has each key of the dictionary exactly once and no other,
    and the member of a key is what the encoder gives for its value. *)
Theorem dumps_keeps_the_keys (repr : value → string) (depth : nat)
    (st : state) (d : gmap string value) (sort_keys : option bool)
    (doc : json) :
  dumps repr depth st (VDict d) false sort_keys = Ok doc →
  ∃ members, doc = JObj members
    ∧ NoDup members.*1
    ∧ (∀ key, key ∈ members.*1 ↔ is_Some (d !! key))
    ∧ ∀ key j, (key, j) ∈ members →
        ∃ x, d !! key = Some x
             ∧ json_dumps (_converter repr st) (default true sort_keys)
                 depth x = Ok j.
Proof.
  unfold dumps. rewrite json_dumps_dict.
  destruct (sequence_items _) as [members|] eqn:Hs; [|done].
  simpl. intros [= <-]. exists members. split; [done|].
  pose proof (sequence_items_keys _ _ Hs) as Hkeys.
  split; [|split].
  - rewrite Hkeys. apply items_NoDup.
  - intros key. rewrite Hkeys, list_elem_of_fmap. split.
    + intros ([key' r] & -> & Hin). apply elem_of_items in Hin.
      rewrite lookup_fmap in Hin. simpl.
      destruct (d !! key'); [by eexists|done].
    + intros [x Hx].
      exists (key, json_dumps (_converter repr st)
                     (default true sort_keys) depth x).
      split; [done|]. apply elem_of_items. by rewrite lookup_fmap, Hx.
  - intros key j Hin. apply sequence_items_Ok in Hs.
    apply list_elem_of_lookup in Hin as [i Hi].
    destruct (Forall2_lookup_r _ _ _ _ _ Hs Hi) as ([key' r] & Hi' & Hk & Hr).
    simpl in Hk, Hr. subst key' r.
    apply list_elem_of_lookup_2, elem_of_items in Hi'.
    rewrite lookup_fmap in Hi'.
    apply fmap_Some in Hi' as (x & Hx & Hjx). by exists x.
Qed.

Lemma dumps_keeps_the_keys_witness :
  ∃ members, Example.plain_document = JObj members
    ∧ NoDup members.*1
    ∧ (∀ key, key ∈ members.*1
              ↔ is_Some ((<["name" := VStr "Grace"]>
                            (<["langs" := VList [VInt 1]]> ∅)
                          : gmap string value) !! key))
    ∧ ∀ key j, (key, j) ∈ members →
        ∃ x, (<["name" := VStr "Grace"]> (<["langs" := VList [VInt 1]]> ∅)
              : gmap string value) !! key = Some x
             ∧ json_dumps (_converter Example.repr empty_registries)
                 (default true None) 0 x = Ok j.
Proof.
  apply (dumps_keeps_the_keys Example.repr 0 empty_registries _ None
           Example.plain_document).
  reflexivity.
Defined.

(** ** Serializers that fail or go round in circles *)

(** X12. An exception raised by the registered serializer of an instance
    is the exception of [dumps], unchanged; and data that holds the
    instance under lists and dictionaries cannot be encoded either. *)
Theorem dumps_serializer_failure (repr : value → string) (depth : nat)
    (st : state) (k : klass) (s : value) (encode_fn : handler) (e : exn)
    (escape : bool) (sort_keys : option bool) :
  REGISTRY st !! k = Some encode_fn →
  encode_fn (VInst k s) = Raise e →
  dumps repr depth st (VInst k s) escape sort_keys = Raise e
  ∧ ∀ data, within (VInst k s) data →
      ∃ e', dumps repr depth st data escape sort_keys = Raise e'.
Proof.
  intros Hr He.
  assert (json_dumps (_converter repr st) (default true sort_keys) depth
            (VInst k s) = Raise e) as Hraise.
  { rewrite json_dumps_inst. unfold _converter. simpl.
    by rewrite Hr, He. }
  split.
  - unfold dumps. by rewrite Hraise.
  - intros data Hw. unfold dumps.
    destruct (json_dumps_raises_within _ _ _ _ _ _ Hraise Hw) as [e' ->].
    by eexists.
Qed.

Lemma dumps_serializer_failure_witness :
  dumps Example.repr 3
    (register_serializer Example.Point Example.failing empty_registries).2
    (Example.point 1 2) false None
  = Raise (OtherError "RuntimeError").
Proof.
  apply (dumps_serializer_failure Example.repr 3 _ Example.Point
           (Example.fields 1 2) Example.failing
           (OtherError "RuntimeError") false None);
    reflexivity.
Defined.

(** X13. A serializer whose outcome holds, under lists and dictionaries,
    the very instance it was given makes [dumps] end in an exception at
    every recursion limit: it never returns a document. *)
Theorem dumps_self_containing (repr : value → string) (st : state)
    (k : klass) (s : value) (encode_fn : handler) (payload : value)
    (escape : bool) (sort_keys : option bool) (depth : nat) :
  REGISTRY st !! k = Some encode_fn →
  encode_fn (VInst k s) = Ok payload →
  within (VInst k s) payload →
  ∃ e, dumps repr depth st (VInst k s) escape sort_keys = Raise e.
Proof.
  intros Hr He Hw.
  assert (∃ e, json_dumps (_converter repr st) (default true sort_keys)
                 depth (VInst k s) = Raise e) as [e Hraise].
  { assert (_converter repr st (VInst k s)
            = Ok (VDict (<["__class__" :=
                             VStr (__module__ k +:+ "." +:+ __name__ k)]>
                           (<["__value__" := payload]> ∅)))) as Hconv.
    { unfold _converter. simpl __class__. by rewrite Hr, He. }
    induction depth as [|n [e IH]].
    - rewrite json_dumps_inst, Hconv. by eexists.
    - rewrite json_dumps_inst, Hconv. simpl mbind at 1. cbv beta iota.
      apply (json_dumps_raises_within _ _ _ _ _ _ IH).
      apply (within_dict _ _ "__value__" payload); [|done].
      by rewrite lookup_insert_ne, lookup_insert_eq. }
  exists e. unfold dumps. by rewrite Hraise.
Qed.

Lemma dumps_self_containing_witness :
  ∃ e, dumps Example.repr 100
         (register_serializer Example.Point Example.serialize_self
            empty_registries).2
         (Example.point 1 2) false None = Raise e.
Proof.
  apply (dumps_self_containing Example.repr _ Example.Point
           (Example.fields 1 2) Example.serialize_self
           (VList [Example.point 1 2]) false None 100).
  - reflexivity.
  - reflexivity.
  - apply (within_list _ _ (Example.point 1 2)).
    + apply list_elem_of_In. simpl. tauto.
    + apply within_here.
Defined.

(** ** The [escape] option *)

Lemma cgi_escape_cons (c : ascii) (rest : string) :
  cgi_escape (String c rest)
  = (if Ascii.eqb c "&"%char then "&amp;"
     else if Ascii.eqb c "<"%char then "&lt;"
     else if Ascii.eqb c ">"%char then "&gt;"
     else String c EmptyString) +:+ cgi_escape rest.
Proof. reflexivity. Qed.

Lemma has_char_app (c : ascii) (a b : string) :
  has_char c (a +:+ b) = has_char c a || has_char c b.
Proof.
  induction a as [|c' a IH]; [done|].
  change (has_char c (String c' (a +:+ b))
          = has_char c (String c' a) || has_char c b).
  simpl. by rewrite IH, orb_assoc.
Qed.

Lemma cgi_escape_has_no (c : ascii) (s : string) :
  c = "<"%char ∨ c = ">"%char → has_char c (cgi_escape s) = false.
Proof.
  intros Hc. induction s as [|c' s IH]; [done|].
  rewrite cgi_escape_cons, has_char_app, IH, orb_false_r.
  destruct (Ascii.eqb_spec c' "&"%char) as [->|_];
    [by destruct Hc as [-> | ->]|].
  destruct (Ascii.eqb_spec c' "<"%char) as [->|Hlt];
    [by destruct Hc as [-> | ->]|].
  destruct (Ascii.eqb_spec c' ">"%char) as [->|Hgt];
    [by destruct Hc as [-> | ->]|].
  simpl. rewrite orb_false_r. apply Ascii.eqb_neq.
  by destruct Hc as [-> | ->].
Qed.

Lemma cgi_escape_markup_free (s : string) :
  markup_free (cgi_escape s) = true.
Proof.
  unfold markup_free. by rewrite !cgi_escape_has_no by auto.
Qed.

Lemma forallb_fmap_true {A B} (f : B → bool) (g : A → B) (l : list A) :
  Forall (λ x, f (g x) = true) l → forallb f (g <$> l) = true.
Proof.
  induction 1 as [|x l Hx _ IH]; [done|]. csimpl. by rewrite Hx, IH.
Qed.

Lemma escape_document_markup_free (doc : json) :
  every_string markup_free (escape_document doc) = true.
Proof.
  induction doc as [|b|z|lit|s|l IH|members IH] using json_induction;
    try done.
  - apply cgi_escape_markup_free.
  - simpl. by apply forallb_fmap_true.
  - simpl. apply forallb_fmap_true.
    eapply Forall_impl; [exact IH|]. intros [key x] Hx. simpl in *.
    by rewrite cgi_escape_markup_free, Hx.
Qed.

(** X14. With [escape] set, no string of the document [dumps] writes,
    key or value, has an angle bracket left in it. *)
Theorem dumps_escape_markup_free (repr : value → string) (depth : nat)
    (st : state) (data : value) (sort_keys : option bool) (doc : json) :
  dumps repr depth st data true sort_keys = Ok doc →
  every_string markup_free doc = true.
Proof.
  unfold dumps.
  destruct (json_dumps _ _ _ _) as [converted|]; [|done].
  simpl. intros [= <-]. apply escape_document_markup_free.
Qed.

Lemma dumps_escape_markup_free_witness :
  dumps Example.repr 0 empty_registries Example.markup true None
  = Ok (JObj [("blah", JStr "&lt;h1&gt;blah &amp; bleh&lt;/h1&gt;")])
  ∧ every_string markup_free
      (JObj [("blah", JStr "&lt;h1&gt;blah &amp; bleh&lt;/h1&gt;")]) = true.
Proof.
  split; [reflexivity|].
  apply (dumps_escape_markup_free Example.repr 0 empty_registries
           Example.markup None).
  reflexivity.
Defined.

Lemma cgi_escape_nothing (s : string) :
  nothing_to_escape s = true → cgi_escape s = s.
Proof.
  unfold nothing_to_escape, markup_free.
  induction s as [|c s IH]; [done|].
  rewrite cgi_escape_cons. simpl has_char.
  rewrite !negb_orb.
  intros [[Hamp Hs1]%andb_true_iff [[Hlt Hs2]%andb_true_iff
    [Hgt Hs3]%andb_true_iff]%andb_true_iff]%andb_true_iff.
  apply negb_true_iff in Hamp, Hlt, Hgt. rewrite Hamp, Hlt, Hgt.
  rewrite IH; [done|]. by rewrite Hs1, Hs2, Hs3.
Qed.

Lemma fmap_id_on {A} (f : A → A) (l : list A) :
  Forall (λ x, f x = x) l → f <$> l = l.
Proof. induction 1 as [|x l Hx _ IH]; [done|]. csimpl. by rewrite Hx, IH. Qed.

Lemma escape_document_nothing (doc : json) :
  every_string nothing_to_escape doc = true → escape_document doc = doc.
Proof.
  induction doc as [|b|z|lit|s|l IH|members IH] using json_induction;
    try done.
  - simpl. intros Hs. by rewrite cgi_escape_nothing.
  - simpl. intros Hl. f_equal. apply fmap_id_on.
    apply Forall_forall. intros x Hx.
    rewrite Forall_forall in IH. apply (IH x Hx).
    rewrite forallb_forall in Hl. apply Hl. by apply list_elem_of_In.
  - simpl. intros Hm. f_equal. apply fmap_id_on.
    apply Forall_forall. intros [key x] Hx.
    rewrite Forall_forall in IH. specialize (IH _ Hx).
    rewrite forallb_forall in Hm.
    specialize (Hm (key, x) (proj1 (list_elem_of_In _ _) Hx)).
    apply andb_true_iff in Hm as [Hkey Hdoc]. simpl in *.
    by rewrite cgi_escape_nothing, IH.
Qed.

(** X15. When no string of the document written without [escape] has an
    ampersand or an angle bracket, [escape] changes nothing: [dumps]
    returns the same document with it. *)
Theorem dumps_escape_nothing_to_do (repr : value → string) (depth : nat)
    (st : state) (data : value) (sort_keys : option bool) (doc : json) :
  dumps repr depth st data false sort_keys = Ok doc →
  every_string nothing_to_escape doc = true →
  dumps repr depth st data true sort_keys = Ok doc.
Proof.
  unfold dumps.
  destruct (json_dumps _ _ _ _) as [converted|]; [|done].
  simpl. intros [= <-] Hn. by rewrite escape_document_nothing.
Qed.

Lemma dumps_escape_nothing_to_do_witness :
  dumps Example.repr 0 empty_registries Example.plain true None
  = Ok Example.plain_document.
Proof.
  apply (dumps_escape_nothing_to_do Example.repr 0 empty_registries
           Example.plain None Example.plain_document);
    reflexivity.
Defined.

Lemma cgi_escape_inj (s1 s2 : string) :
  cgi_escape s1 = cgi_escape s2 → s1 = s2.
Proof.
  revert s2. induction s1 as [|c1 s1 IH]; intros [|c2 s2];
    rewrite ?cgi_escape_cons.
  - done.
  - destruct (Ascii.eqb c2 "&"%char); [|destruct (Ascii.eqb c2 "<"%char);
      [|destruct (Ascii.eqb c2 ">"%char)]];
      intros H; cbv [String.append] in H; discriminate H.
  - destruct (Ascii.eqb c1 "&"%char); [|destruct (Ascii.eqb c1 "<"%char);
      [|destruct (Ascii.eqb c1 ">"%char)]];
      intros H; cbv [String.append] in H; discriminate H.
  - destruct (Ascii.eqb_spec c1 "&"%char) as [->|?];
      [|destruct (Ascii.eqb_spec c1 "<"%char) as [->|?];
        [|destruct (Ascii.eqb_spec c1 ">"%char) as [->|?]]];
    (destruct (Ascii.eqb_spec c2 "&"%char) as [->|?];
      [|destruct (Ascii.eqb_spec c2 "<"%char) as [->|?];
        [|destruct (Ascii.eqb_spec c2 ">"%char) as [->|?]]]);
    intros H; cbv [String.append] in H; simplify_eq;
      try (f_equal; by apply IH).
Qed.

Lemma fmap_inj_on {A B} (f : A → B) (l1 l2 : list A) :
  Forall (λ x, ∀ y, f x = f y → x = y) l1 →
  f <$> l1 = f <$> l2 → l1 = l2.
Proof.
  intros Hl. revert l2.
  induction Hl as [|x l1 Hx _ IH]; intros [|y l2]; try done.
  csimpl. intros [= Hxy Hrest]. f_equal; [by apply Hx|by apply IH].
Qed.

Lemma escape_document_inj (doc1 doc2 : json) :
  escape_document doc1 = escape_document doc2 → doc1 = doc2.
Proof.
  revert doc2.
  induction doc1 as [|b|z|lit|s|l IH|members IH] using json_induction;
    intros [|b2|z2|lit2|s2|l2|members2]; simpl; try done.
  - intros [= H%cgi_escape_inj]. by subst.
  - intros [= H]. f_equal. by apply (fmap_inj_on escape_document).
  - intros [= H]. f_equal.
    apply (fmap_inj_on
             (λ kj : string * json, (cgi_escape kj.1, escape_document kj.2)));
      [|done].
    eapply Forall_impl; [exact IH|].
    intros [key x] Hx [key' y]. simpl in *.
    intros [= Hk%cgi_escape_inj Hy%Hx]. by subst.
Qed.

(** X16. Escaping loses nothing: two calls of [dumps] with [escape] give
    the same outcome exactly when they do without it. *)
Theorem dumps_escape_lossless (repr : value → string) (depth : nat)
    (st : state) (data1 data2 : value) (sort_keys : option bool) :
  dumps repr depth st data1 true sort_keys
  = dumps repr depth st data2 true sort_keys
  ↔ dumps repr depth st data1 false sort_keys
    = dumps repr depth st data2 false sort_keys.
Proof.
  unfold dumps.
  destruct (json_dumps _ _ _ data1) as [doc1|e1],
           (json_dumps _ _ _ data2) as [doc2|e2]; simpl; split;
    intros H; simplify_eq; try done.
  f_equal. by apply escape_document_inj.
Qed.

(** ** Registering, then encoding *)

(** X17. Once a serializer is registered for a class, an instance for
    which it returns data with no instance in it is encoded at any
    recursion limit of one or more: the document is the envelope with the
    identifier of the class, and its [__value__] denotes the data the
    function returned. *)
Theorem register_then_dumps (repr : value → string) (depth : nat)
    (st : state) (k : klass) (s : value) (encode_fn : handler)
    (payload : value) :
  encode_fn (VInst k s) = Ok payload →
  native payload →
  ∃ encoded,
    dumps repr (S depth) (register_serializer k encode_fn st).2 (VInst k s)
      false None
    = Ok (JObj [("__class__", JStr (__module__ k +:+ "." +:+ __name__ k));
                ("__value__", encoded)])
    ∧ plain_value encoded = payload.
Proof.
  intros He Hn.
  destruct (json_dumps_native
              (_converter repr (register_serializer k encode_fn st).2)
              true depth payload Hn) as (encoded & Henc & Hback).
  exists encoded. split.
  - unfold dumps. simpl default. rewrite json_dumps_inst.
    assert (_converter repr (register_serializer k encode_fn st).2 (VInst k s)
            = Ok (VDict (<["__class__" :=
                             VStr (__module__ k +:+ "." +:+ __name__ k)]>
                           (<["__value__" := payload]> ∅)))) as ->.
    { unfold _converter. simpl. by rewrite lookup_insert_eq, He. }
    simpl mbind at 1. cbv beta iota.
    rewrite json_dumps_dict, !fmap_insert, fmap_empty, items_envelope.
    simpl in Henc. rewrite !sequence_items_cons, Henc. simpl.
    by destruct depth.
  - rewrite json_loads_no_hook in Hback. by simplify_eq.
Qed.

Lemma native_fields (x y : Z) : native (Example.fields x y).
Proof.
  intros o Ho Hi. unfold Example.fields in Ho.
  inversion Ho as [| |d key v Hv Hw]; subst; [done|].
  apply lookup_insert_Some in Hv
    as [[_ <-]|[_ [[_ <-]|[_ Hv]]%lookup_insert_Some]].
  - inversion Hw; subst; done.
  - inversion Hw; subst; done.
  - by rewrite lookup_empty in Hv.
Qed.

Lemma register_then_dumps_witness :
  ∃ encoded,
    dumps Example.repr 1
      (register_serializer Example.Point Example.serialize_point
         empty_registries).2 (Example.point 1 2) false None
    = Ok (JObj [("__class__", JStr "pkg.Point"); ("__value__", encoded)])
    ∧ plain_value encoded = Example.fields 1 2.
Proof.
  apply (register_then_dumps Example.repr 0 empty_registries Example.Point
           (Example.fields 1 2) Example.serialize_point (Example.fields 1 2)).
  - reflexivity.
  - apply native_fields.
Defined.

(** ** One failure stops the decoding *)

(** X18. An exception raised while decoding a part of a document, at
    whatever depth, ends the decoding of the whole document in an
    exception. *)
Theorem loads_failure_is_fatal (env : environment) (st : state)
    (sub doc : json) (e : exn) :
  loads env st sub = Raise e →
  part_of sub doc →
  ∃ e', loads env st doc = Raise e'.
Proof.
  unfold loads. intros Hsub.
  induction 1 as [|l x Hx _ [e' IH]|members key x Hx _ [e' IH]].
  - by eexists.
  - simpl.
    destruct (sequence_raises
                (json_loads (_convert_from env st) <$> l) e') as [e'' ->];
      [|by eexists].
    apply list_elem_of_fmap. by exists x.
  - simpl.
    destruct (sequence_items_raises
                ((λ kj, (kj.1, json_loads (_convert_from env st) kj.2))
                   <$> members) key e') as [e'' ->]; [|by eexists].
    apply list_elem_of_fmap. exists (key, x).
    split; [simpl; by rewrite IH|done].
Qed.

Lemma loads_failure_is_fatal_witness :
  ∃ e', loads Example.env empty_registries
          (JArr [JInt 1;
                 JObj [("first", JStr "A");
                       ("second", Example.envelope "pkg.Point"
                                    (Example.xy 1 2))]])
        = Raise e'.
Proof.
  apply (loads_failure_is_fatal Example.env empty_registries
           (Example.envelope "pkg.Point" (Example.xy 1 2)) _
           (TypeError
              "There is no deserializer registered to handle instances of 'Point'")).
  - reflexivity.
  - apply (part_arr _ _
             (JObj [("first", JStr "A");
                    ("second", Example.envelope "pkg.Point"
                                 (Example.xy 1 2))])).
    + apply list_elem_of_In. simpl. tauto.
    + apply (part_obj _ _ "second"
               (Example.envelope "pkg.Point" (Example.xy 1 2))).
      * apply list_elem_of_In. simpl. tauto.
      * apply part_here.
Defined.
